(** * Attendance tracker: clock-in / clock-out engine and its reports

    A shallow embedding of [server/routes.ts], [server/storage.ts] (the
    map-backed [MemStorage] and the SQL-backed [DatabaseStorage]) and of the
    request schemas of [shared/schema.ts], followed by the properties of the
    attendance session lifecycle that the specification states. *)

From Stdlib Require Import ZArith List String Ascii Bool Lia.
From Stdlib Require Import Permutation Sorted.
From Stdlib Require Import Floats.
From Stdlib Require Uint63.
Import ListNotations.

Local Open Scope string_scope.
Local Open Scope Z_scope.

(** ** The JavaScript values the server code computes with *)

Module JS.

(** A [Date] is its time value: milliseconds since the epoch, an integer
    of magnitude at most 8.64e15. *)
Definition Date := Z.

Definition msPerSecond : Z := 1000.
Definition msPerMinute : Z := 60000.
Definition msPerHour : Z := 3600000.
Definition msPerDay : Z := 86400000.

Definition HourFromTime (t : Z) : Z := (t / msPerHour) mod 24.
Definition MinFromTime (t : Z) : Z := (t / msPerMinute) mod 60.
Definition SecFromTime (t : Z) : Z := (t / msPerSecond) mod 60.

Section LocalTime.
(** The offset of the server's local time zone at an instant, in
    milliseconds (ECMAScript's LocalTZA). *)
Variable LocalTZA : Z -> Z.

Definition LocalTime (t : Date) : Z := t + LocalTZA t.
Definition getHours (d : Date) : Z := HourFromTime (LocalTime d).
Definition getMinutes (d : Date) : Z := MinFromTime (LocalTime d).
End LocalTime.

Definition getTime (d : Date) : Z := d.

(** [new Date(d)] of a date is a date with the same time value. *)
Definition newDate (d : Date) : Date := d.

(** *** [toISOString().split('T')[0]]: the UTC calendar day *)

Definition Day (t : Z) : Z := t / msPerDay.

(** Civil date of a day number (days since 1970-01-01), proleptic
    Gregorian calendar. *)
Definition civilFromDays (days : Z) : Z * Z * Z :=
  let z := days + 719468 in
  let era := z / 146097 in
  let doe := z - era * 146097 in
  let yoe := (doe - doe / 1460 + doe / 36524 - doe / 146096) / 365 in
  let doy := doe - (365 * yoe + yoe / 4 - yoe / 100) in
  let mp := (5 * doy + 2) / 153 in
  let d := doy - (153 * mp + 2) / 5 + 1 in
  let m := if mp <? 10 then mp + 3 else mp - 9 in
  let y := yoe + era * 400 + (if m <=? 2 then 1 else 0) in
  (y, m, d).

Definition digit (n : Z) : ascii := ascii_of_nat (48 + Z.to_nat (n mod 10)).

Fixpoint padDigits (width : nat) (n : Z) : string :=
  match width with
  | O => EmptyString
  | S w => padDigits w (n / 10) ++ String (digit n) EmptyString
  end.

Definition isoYear (y : Z) : string :=
  if (0 <=? y) && (y <=? 9999) then padDigits 4 y
  else if y <? 0 then "-" ++ padDigits 6 (- y)
  else "+" ++ padDigits 6 y.

Definition toISODate (d : Date) : string :=
  let '(y, m, dd) := civilFromDays (Day d) in
  isoYear y ++ "-" ++ padDigits 2 m ++ "-" ++ padDigits 2 dd.

(** *** Numbers *)

(** The Number of an integer (exact below 2^53, rounded to nearest above). *)
Definition numberOfZ (z : Z) : float :=
  if z <? 0 then (- of_uint63 (Uint63.of_Z (- z)))%float
  else of_uint63 (Uint63.of_Z z).

(** [Math.round]: the integral Number closest to [x], ties towards
    +infinity; NaN, the infinities and integral values are returned as
    they are, and a result of zero keeps the sign of [x]. A finite [x] is
    [v * 2^e] for its signed mantissa [v]; when [e < 0] the result is the
    floor of [x + 1/2], that is of [(v + 2^(-e-1)) / 2^(-e)]. *)
Definition Math_round (x : float) : float :=
  match Prim2SF x with
  | S754_finite s m e =>
      if 0 <=? e then x
      else
        let v := if s then Zneg m else Zpos m in
        let half := Z.shiftl 1 (- e - 1) in
        let n := Z.shiftr (v + half) (- e) in
        if n =? 0 then (if s then neg_zero else zero) else numberOfZ n
  | _ => x
  end.

(** Truthiness of a Number, a string and a nullable value. *)
Definition truthyNumber (x : float) : bool := negb (PrimFloat.is_zero x || PrimFloat.is_nan x).
Definition truthyString (s : string) : bool := negb (String.eqb s "").

(** *** Strings *)

(** [String.prototype.toLowerCase] on ASCII text: the letters A to Z are
    folded to a to z and every other character is left as it is. The
    runtime also folds the cased letters outside ASCII, which this function
    leaves as they are; what is stated of the case folding is stated of
    ASCII names and queries ([isAscii]). *)
Definition lowerAscii (c : ascii) : ascii :=
  let n := nat_of_ascii c in
  if (Nat.leb 65 n && Nat.leb n 90)%bool then ascii_of_nat (n + 32) else c.

Fixpoint toLowerCase (s : string) : string :=
  match s with
  | EmptyString => EmptyString
  | String c s' => String (lowerAscii c) (toLowerCase s')
  end.

Fixpoint includes (s sub : string) : bool :=
  String.prefix sub s
  || match s with
     | EmptyString => false
     | String _ s' => includes s' sub
     end.

Definition isWhiteSpace (c : ascii) : bool :=
  let n := nat_of_ascii c in
  (Nat.eqb n 32 || Nat.eqb n 9 || Nat.eqb n 10 || Nat.eqb n 11
   || Nat.eqb n 12 || Nat.eqb n 13)%bool.

Fixpoint trimStart (s : string) : string :=
  match s with
  | String c s' => if isWhiteSpace c then trimStart s' else s
  | EmptyString => EmptyString
  end.

Fixpoint trimEnd (s : string) : string :=
  match s with
  | EmptyString => EmptyString
  | String c s' =>
      match trimEnd s' with
      | EmptyString => if isWhiteSpace c then EmptyString else String c EmptyString
      | t => String c t
      end
  end.

Definition trim (s : string) : string := trimEnd (trimStart s).

(** *** [Array.prototype.sort]

    The sort is stable and the comparators used here are consistent, so
    the result is the stable sorted permutation; it is computed here by
    insertion, an element staying in front of the later elements it
    compares equal to. *)
Section Sort.
Context {A : Type} (cmp : A -> A -> Z).

Fixpoint sortInsert (x : A) (l : list A) : list A :=
  match l with
  | [] => [x]
  | y :: l' => if 0 <? cmp x y then y :: sortInsert x l' else x :: y :: l'
  end.

Definition sort (l : list A) : list A := fold_right sortInsert [] l.
End Sort.

(** *** [Map]

    A map iterates in insertion order, and [set] on a key it has keeps the
    key's place. *)
Section Map.
Context {V : Type}.

Fixpoint mapGet (m : list (string * V)) (key : string) : option V :=
  match m with
  | [] => None
  | (k, v) :: rest => if String.eqb k key then Some v else mapGet rest key
  end.

Fixpoint mapSet (m : list (string * V)) (key : string) (value : V)
  : list (string * V) :=
  match m with
  | [] => [(key, value)]
  | (k, v) :: rest =>
      if String.eqb k key then (k, value) :: rest
      else (k, v) :: mapSet rest key value
  end.

Definition mapValues (m : list (string * V)) : list V := map snd m.
End Map.

End JS.

(** ** [shared/schema.ts]: the attendance record and the request schemas *)

Module Schema.
Import JS.

(** The [total_hours] column is text. The only writer is [calculateHours],
    which stores a Number followed by the letter h; [hoursText x] is that
    text, and [parseFloat] reads the Number back from it. *)
Inductive HoursText := hoursText (x : float).

Definition parseFloat (t : HoursText) : float :=
  match t with hoursText x => x end.

(** The Number that the text of [n] reads back as: [n] itself, but both
    zeros print as 0. *)
Definition printed (n : float) : float :=
  if PrimFloat.is_zero n then zero else n.

(** [n + "h"] *)
Definition withHourSuffix (n : float) : HoursText := hoursText (printed n).

Record AttendanceRecord := mkAttendanceRecord {
  id : string;
  employeeName : string;
  department : string;
  clockInTime : Date;
  clockOutTime : option Date;
  totalHours : option HoursText;
  status : string;
  date : string
}.

(** [InsertAttendance]: the record without its id; the nullable and the
    defaulted columns are optional. *)
Record InsertAttendance := mkInsertAttendance {
  new_employeeName : string;
  new_department : string;
  new_clockInTime : Date;
  new_clockOutTime : option (option Date);
  new_totalHours : option (option HoursText);
  new_status : option string;
  new_date : string
}.

(** [Partial<AttendanceRecord>]: [None] is a field the object lacks. *)
Record PartialAttendanceRecord := mkPartial {
  upd_id : option string;
  upd_employeeName : option string;
  upd_department : option string;
  upd_clockInTime : option Date;
  upd_clockOutTime : option (option Date);
  upd_totalHours : option (option HoursText);
  upd_status : option string;
  upd_date : option string
}.

Definition orElse {A : Type} (o : option A) (d : A) : A :=
  match o with Some a => a | None => d end.

(** [{ ...record, ...updates }] *)
Definition spread (record : AttendanceRecord) (updates : PartialAttendanceRecord)
  : AttendanceRecord :=
  {| id := orElse (upd_id updates) (id record);
     employeeName := orElse (upd_employeeName updates) (employeeName record);
     department := orElse (upd_department updates) (department record);
     clockInTime := orElse (upd_clockInTime updates) (clockInTime record);
     clockOutTime := orElse (upd_clockOutTime updates) (clockOutTime record);
     totalHours := orElse (upd_totalHours updates) (totalHours record);
     status := orElse (upd_status updates) (status record);
     date := orElse (upd_date updates) (date record) |}.

(** In an object literal a property written after a spread replaces the
    one the spread copied: [{ ...record, status: "active" }]. *)
Definition overwritten {A B : Type} (copied : A) (written : B) : B := written.

(** A stored hours text is never the empty string. *)
Definition truthyHours (t : HoursText) : bool := true.

Definition departments : list string :=
  [ "Tech Team Alpha"; "Tech Team Charlie"; "Human Resources Team";
    "Marketing Team"; "Sales Team"; "Founder's Office"; "Content Factory";
    "Social Media & Content"; "Customer Support"; "Other" ].

(** *** Request bodies and their validation *)

Inductive JsonValue :=
| JUndefined
| JString (s : string)
| JOther.

(** A parsed request body: an object, seen through its properties, or
    something that is not an object. *)
Inductive Body :=
| BodyObject (props : list (string * JsonValue))
| BodyOther.

Fixpoint getProp (props : list (string * JsonValue)) (key : string) : JsonValue :=
  match props with
  | [] => JUndefined
  | (k, v) :: rest => if String.eqb k key then v else getProp rest key
  end.

Inductive ZodIssue :=
| invalid_type (path : string)
| too_small (path : string) (message : string)
| invalid_enum_value (path : string).

(** [z.string().min(1, message)] *)
Definition zStringMin1 (path message : string) (v : JsonValue)
  : string + list ZodIssue :=
  match v with
  | JString s =>
      if (1 <=? Z.of_nat (String.length s)) then inl s
      else inr [too_small path message]
  | _ => inr [invalid_type path]
  end.

(** [z.enum(values)] *)
Definition zEnum (values : list string) (path : string) (v : JsonValue)
  : string + list ZodIssue :=
  match v with
  | JString s =>
      if existsb (String.eqb s) values then inl s
      else inr [invalid_enum_value path]
  | _ => inr [invalid_type path]
  end.

Definition issuesOf {A : Type} (r : A + list ZodIssue) : list ZodIssue :=
  match r with inl _ => [] | inr l => l end.

Record ClockInData := mkClockInData {
  data_employeeName : string;
  data_department : string
}.

Record ClockOutData := mkClockOutData { data_recordId : string }.

(** [clockInSchema.parse]: [inr] is the thrown [ZodError], its issues in
    the order of the schema's keys. *)
Definition clockInSchema (body : Body) : ClockInData + list ZodIssue :=
  match body with
  | BodyOther => inr [invalid_type ""]
  | BodyObject props =>
      let name := zStringMin1 "employeeName" "Employee name is required"
                    (getProp props "employeeName") in
      let dept := zEnum departments "department" (getProp props "department") in
      match name, dept with
      | inl n, inl d => inl (mkClockInData n d)
      | _, _ => inr (issuesOf name ++ issuesOf dept)%list
      end
  end.

Definition clockOutSchema (body : Body) : ClockOutData + list ZodIssue :=
  match body with
  | BodyOther => inr [invalid_type ""]
  | BodyObject props =>
      match zStringMin1 "recordId" "Record ID is required"
              (getProp props "recordId") with
      | inl i => inl (mkClockOutData i)
      | inr issues => inr issues
      end
  end.

(** *** Users *)

Record User := mkUser {
  userId : string;
  username : string;
  password : string
}.

Record InsertUser := mkInsertUser {
  new_username : string;
  new_password : string
}.

End Schema.

(** ** [server/storage.ts]: the map-backed store *)

Module MemStorage.
Import JS Schema.

(** The [attendanceRecords] map. A JavaScript [Map] iterates in insertion
    order, and [set] on a key it has keeps the key's place. *)
Definition Store := list (string * AttendanceRecord).

Fixpoint get (m : Store) (key : string) : option AttendanceRecord :=
  match m with
  | [] => None
  | (k, v) :: rest => if String.eqb k key then Some v else get rest key
  end.

Fixpoint set (m : Store) (key : string) (value : AttendanceRecord) : Store :=
  match m with
  | [] => [(key, value)]
  | (k, v) :: rest =>
      if String.eqb k key then (k, value) :: rest
      else (k, v) :: set rest key value
  end.

Definition values (m : Store) : list AttendanceRecord := map snd m.
Definition keys (m : Store) : list string := map fst m.

(** [randomUUID()] is an input: the identifier it returned. *)
Definition createAttendanceRecord (uuid : string) (record : InsertAttendance)
    (m : Store) : AttendanceRecord * Store :=
  let attendanceRecord :=
    {| id := uuid;
       employeeName := new_employeeName record;
       department := new_department record;
       clockInTime := new_clockInTime record;
       clockOutTime := overwritten (new_clockOutTime record) None;
       totalHours := overwritten (new_totalHours record) None;
       status := overwritten (new_status record) "active";
       date := new_date record |} in
  (attendanceRecord, set m uuid attendanceRecord).

Definition getAttendanceRecord (key : string) (m : Store)
  : option AttendanceRecord := get m key.

Definition updateAttendanceRecord (key : string)
    (updates : PartialAttendanceRecord) (m : Store)
  : option AttendanceRecord * Store :=
  match get m key with
  | None => (None, m)
  | Some record =>
      let updatedRecord := spread record updates in
      (Some updatedRecord, set m key updatedRecord)
  end.

Definition byClockInDesc (a b : AttendanceRecord) : Z :=
  getTime (newDate (clockInTime b)) - getTime (newDate (clockInTime a)).

Definition getAllAttendanceRecords (m : Store) : list AttendanceRecord :=
  sort byClockInDesc (values m).

Definition getActiveAttendanceRecord (name day : string) (m : Store)
  : option AttendanceRecord :=
  find (fun record =>
          String.eqb (employeeName record) name
          && String.eqb (date record) day
          && String.eqb (status record) "active")
       (values m).

Record Filters := mkFilters {
  f_employeeName : option string;
  f_department : option string;
  f_date : option string;
  f_minHours : option float
}.

Definition truthyOpt {A : Type} (truthy : A -> bool) (o : option A) : bool :=
  match o with Some a => truthy a | None => false end.

Definition filterIf {A : Type} (guard : bool) (keep : A -> bool) (l : list A)
  : list A := if guard then filter keep l else l.

Definition hoursAtLeast (minHours : float) (record : AttendanceRecord) : bool :=
  match totalHours record with
  | None => false
  | Some t =>
      if negb (truthyHours t) then false
      else (minHours <=? parseFloat t)%float
  end.

(** The [records] of [getAttendanceRecordsByFilters] once its four guarded
    filters have run, before its final sort. *)
Definition filteredRecords (filters : Filters) (m : Store)
  : list AttendanceRecord :=
  let records := values m in
  let records :=
    filterIf (truthyOpt truthyString (f_employeeName filters))
      (fun record =>
         includes (toLowerCase (employeeName record))
           (toLowerCase (orElse (f_employeeName filters) "")))
      records in
  let records :=
    filterIf (truthyOpt truthyString (f_department filters))
      (fun record =>
         String.eqb (department record) (orElse (f_department filters) ""))
      records in
  let records :=
    filterIf (truthyOpt truthyString (f_date filters))
      (fun record => String.eqb (date record) (orElse (f_date filters) ""))
      records in
  let records :=
    filterIf (truthyOpt truthyNumber (f_minHours filters))
      (fun record => hoursAtLeast (orElse (f_minHours filters) zero) record)
      records in
  records.

Definition getAttendanceRecordsByFilters (filters : Filters) (m : Store)
  : list AttendanceRecord :=
  sort byClockInDesc (filteredRecords filters m).

Record Statistics := mkStatistics {
  totalEmployees : Z;
  currentlyActive : Z;
  lateToday : Z;
  avgHoursToday : float
}.

(** [new Set(array)]: the distinct elements, in order of first occurrence. *)
Fixpoint newSet (l : list string) : list string :=
  match l with
  | [] => []
  | x :: rest => x :: filter (fun y => negb (String.eqb y x)) (newSet rest)
  end.

Definition size {A : Type} (l : list A) : Z := Z.of_nat (List.length l).

(** [now] is the instant [new Date()] returned. *)
Definition getAttendanceStatistics (now : Date) (m : Store) : Statistics :=
  let today := toISODate now in
  let todayRecords :=
    filter (fun record => String.eqb (date record) today) (values m) in
  let uniqueEmployees := newSet (map employeeName todayRecords) in
  let activeRecords :=
    filter (fun record => String.eqb (status record) "active") todayRecords in
  let lateRecords :=
    filter (fun record => String.eqb (status record) "late") todayRecords in
  let completedRecords :=
    filter (fun record => truthyOpt truthyHours (totalHours record))
      todayRecords in
  let totalHours :=
    fold_left
      (fun sum record =>
         (sum + match totalHours record with
                | Some t => parseFloat t
                | None => zero
                end)%float)
      completedRecords zero in
  let avgHours :=
    if 0 <? size completedRecords
    then (totalHours / numberOfZ (size completedRecords))%float
    else zero in
  {| totalEmployees := size uniqueEmployees;
     currentlyActive := size activeRecords;
     lateToday := size lateRecords;
     avgHoursToday := (Math_round (avgHours * 10) / 10)%float |}.

(** *** The [users] map *)

Definition Users := list (string * User).

Definition getUser (key : string) (users : Users) : option User :=
  mapGet users key.

Definition getUserByUsername (name : string) (users : Users) : option User :=
  find (fun user => String.eqb (username user) name) (mapValues users).

(** [uuid] is the identifier [randomUUID()] returned. *)
Definition createUser (uuid : string) (insertUser : InsertUser) (users : Users)
  : User * Users :=
  let user :=
    {| userId := uuid;
       username := new_username insertUser;
       password := new_password insertUser |} in
  (user, mapSet users uuid user).

End MemStorage.

(** ** [server/routes.ts]: the request handlers *)

Module Routes.
Import JS Schema MemStorage.

Definition calculateHours (clockIn clockOut : Date) : HoursText :=
  let diffMs := numberOfZ (getTime clockOut - getTime clockIn) in
  let diffHours := (diffMs / numberOfZ (1000 * 60 * 60))%float in
  withHourSuffix (Math_round (diffHours * 100) / 100)%float.

Inductive Message :=
| Text (s : string)
| LibraryText (issue : ZodIssue).

(** The message of an issue: the schema's own where it gives one. *)
Definition issueMessage (issue : ZodIssue) : Message :=
  match issue with
  | too_small _ message => Text message
  | _ => LibraryText issue
  end.

Inductive ResponseBody :=
| recordJson (record : option AttendanceRecord)
| messageJson (message : Message) (recordId : option string).

Record Response := mkResponse {
  statusCode : Z;
  body : ResponseBody
}.

(** The [catch] of a handler whose [parse] threw a [ZodError]. *)
Definition zodErrorResponse (issues : list ZodIssue) : Response :=
  match issues with
  | first :: _ => mkResponse 400 (messageJson (issueMessage first) None)
  | [] => mkResponse 500 (messageJson (Text "Internal server error") None)
  end.

Section Handlers.
Variable LocalTZA : Z -> Z.

Definition determineStatus (clockInTime : Date) : string :=
  let hour := getHours LocalTZA clockInTime in
  let minute := getMinutes LocalTZA clockInTime in
  if (9 <? hour) || ((hour =? 9) && (15 <? minute)) then "late"
  else "active".

(** POST /api/attendance/clock-in. [now] and [now'] are the instants
    the two [new Date()] of the handler returned, [uuid] the identifier
    [randomUUID()] returned. *)
Definition clockIn (now now' : Date) (uuid : string) (reqBody : Body)
    (storage : Store) : Response * Store :=
  match clockInSchema reqBody with
  | inr issues => (zodErrorResponse issues, storage)
  | inl data =>
      let today := toISODate now in
      match getActiveAttendanceRecord (data_employeeName data) today storage with
      | Some existingRecord =>
          (mkResponse 400
             (messageJson (Text "Employee already clocked in today")
                (Some (id existingRecord))),
           storage)
      | None =>
          let clockInTime := now' in
          let status := determineStatus clockInTime in
          let '(record, storage') :=
            createAttendanceRecord uuid
              {| new_employeeName := data_employeeName data;
                 new_department := data_department data;
                 new_clockInTime := clockInTime;
                 new_clockOutTime := None;
                 new_totalHours := None;
                 new_status := Some status;
                 new_date := today |}
              storage in
          (mkResponse 200 (recordJson (Some record)), storage')
      end
  end.

(** POST /api/attendance/clock-out. [now] is the instant [new Date()]
    returned. *)
Definition clockOut (now : Date) (reqBody : Body) (storage : Store)
  : Response * Store :=
  match clockOutSchema reqBody with
  | inr issues => (zodErrorResponse issues, storage)
  | inl data =>
      match getAttendanceRecord (data_recordId data) storage with
      | None =>
          (mkResponse 404 (messageJson (Text "Attendance record not found") None),
           storage)
      | Some record =>
          match clockOutTime record with
          | Some _ =>
              (mkResponse 400
                 (messageJson (Text "Employee already clocked out") None),
               storage)
          | None =>
              let clockOutTime := now in
              let totalHours := calculateHours (newDate (clockInTime record)) clockOutTime in
              let '(updatedRecord, storage') :=
                updateAttendanceRecord (id record)
                  {| upd_id := None;
                     upd_employeeName := None;
                     upd_department := None;
                     upd_clockInTime := None;
                     upd_clockOutTime := Some (Some clockOutTime);
                     upd_totalHours := Some (Some totalHours);
                     upd_status := Some "completed";
                     upd_date := None |}
                  storage in
              (mkResponse 200 (recordJson updatedRecord), storage')
          end
      end
  end.

(** GET /api/attendance/status/:employeeName *)
Definition getStatus (now : Date) (name : string) (storage : Store)
  : bool * option AttendanceRecord :=
  let today := toISODate now in
  let activeRecord := getActiveAttendanceRecord name today storage in
  (match activeRecord with Some _ => true | None => false end, activeRecord).

End Handlers.

(** *** POST /api/hr/authenticate *)

Record AuthResponse := mkAuthResponse {
  authStatus : Z;
  success : bool;
  authMessage : string
}.

(** [process.env.HR_PASSWORD || "hr123"]: [env] is the variable, [None]
    when it is not set. *)
Definition HR_PASSWORD (env : option string) : string :=
  match env with
  | Some configured => if truthyString configured then configured else "hr123"
  | None => "hr123"
  end.

(** The handler for a request whose body is an object; [password ===
    HR_PASSWORD] holds of a string with the same characters only. *)
Definition hrAuthenticate (env : option string) (props : list (string * JsonValue))
  : AuthResponse :=
  let password := getProp props "password" in
  match password with
  | JString p =>
      if String.eqb p (HR_PASSWORD env)
      then mkAuthResponse 200 true "Authentication successful"
      else mkAuthResponse 401 false "Invalid password"
  | _ => mkAuthResponse 401 false "Invalid password"
  end.

End Routes.

(** ** [server/storage.ts], SQL-backed variant: creation of a row *)

Module DatabaseStorage.
Import JS Schema.

(** The [attendance_records] table, its rows in insertion order. *)
Definition Table := list AttendanceRecord.

Definition hasId (key : string) (row : AttendanceRecord) : bool :=
  String.eqb (id row) key.

(** [db.insert(attendanceRecords).values(row).returning()]: the primary key
    rejects a second row with the same id ([None] is the rejected promise). *)
Definition insertReturning (row : AttendanceRecord) (t : Table)
  : option (list AttendanceRecord * Table) :=
  if existsb (hasId (id row)) t then None
  else Some ([row], t ++ [row])%list.

(** [uuid] is the value the column default [gen_random_uuid()] produced. *)
Definition createAttendanceRecord (uuid : string) (record : InsertAttendance)
    (t : Table) : option (AttendanceRecord * Table) :=
  match
    insertReturning
      {| id := uuid;
         employeeName := new_employeeName record;
         department := new_department record;
         clockInTime :=
           overwritten (new_clockInTime record) (newDate (new_clockInTime record));
         clockOutTime := overwritten (new_clockOutTime record) None;
         totalHours := overwritten (new_totalHours record) None;
         status := overwritten (new_status record) "active";
         date := new_date record |}
      t
  with
  | Some (attendanceRecord :: _, t') => Some (attendanceRecord, t')
  | _ => None
  end.

Definition getAttendanceRecord (key : string) (t : Table)
  : option AttendanceRecord := find (hasId key) t.

End DatabaseStorage.

(** * The vocabulary of the properties *)

Import JS Schema MemStorage Routes.

(** ** Instants *)

(** Coordinated universal time as the server's zone, and an instant given by
    its UTC day number and time of day. *)
Definition utc : Z -> Z := fun _ => 0.

Definition instant (day hour minute second : Z) : Date :=
  day * msPerDay + hour * msPerHour + minute * msPerMinute + second * msPerSecond.

(** ** The failures of the handlers, under the names the specification
    gives them *)

(** The issues the two request schemas can raise. *)
Definition schemaIssues : list ZodIssue :=
  [ invalid_type "";
    invalid_type "employeeName";
    too_small "employeeName" "Employee name is required";
    invalid_type "department";
    invalid_enum_value "department";
    invalid_type "recordId";
    too_small "recordId" "Record ID is required" ].

(** A validation error is the answer to a thrown [ZodError]: status 400
    with the message of an issue of the schema. *)
Definition ValidationError (r : Response) : Prop :=
  exists issue : ZodIssue,
    In issue schemaIssues
    /\ r = mkResponse 400 (messageJson (issueMessage issue) None).

Definition DuplicateSessionError (existingId : string) : Response :=
  mkResponse 400
    (messageJson (Text "Employee already clocked in today") (Some existingId)).

Definition NotFoundError : Response :=
  mkResponse 404 (messageJson (Text "Attendance record not found") None).

Definition AlreadyClosedError : Response :=
  mkResponse 400 (messageJson (Text "Employee already clocked out") None).

(** The answer to a request that went through. *)
Definition Created (r : AttendanceRecord) : Response :=
  mkResponse 200 (recordJson (Some r)).

(** ** Requests and sessions *)

(** The request bodies a well-behaved client sends. *)
Definition clockInBody (name dept : string) : Body :=
  BodyObject [("employeeName", JString name); ("department", JString dept)].

Definition clockOutBody (recordId : string) : Body :=
  BodyObject [("recordId", JString recordId)].

(** The session a clock-in stores. *)
Definition newSession (uuid name dept : string) (today : string) (t : Date)
  : AttendanceRecord :=
  {| id := uuid; employeeName := name; department := dept; clockInTime := t;
     clockOutTime := None; totalHours := None; status := "active";
     date := today |}.

(** What the schemas refuse in a property: a name or record id that is not
    a string of at least one character, a department that is not one of the
    ten listed. *)
Definition emptyOrNoString (v : JsonValue) : Prop :=
  match v with JString s => s = "" | _ => True end.

Definition noDepartment (v : JsonValue) : Prop :=
  match v with JString s => ~ In s departments | _ => True end.

(** The session a clock-out at [now] makes of an open session. *)
Definition closedSession (r : AttendanceRecord) (now : Date) : AttendanceRecord :=
  {| id := id r; employeeName := employeeName r; department := department r;
     clockInTime := clockInTime r;
     clockOutTime := Some now;
     totalHours := Some (calculateHours (clockInTime r) now);
     status := "completed";
     date := date r |}.

(** The test [getActiveAttendanceRecord] applies to a stored session. *)
Definition isActiveFor (name day : string) (record : AttendanceRecord) : bool :=
  String.eqb (employeeName record) name
  && String.eqb (date record) day
  && String.eqb (status record) "active".

(** ** The store along a run of the server *)

(** Every record is stored under its own id, and no key occurs twice. *)
Definition wellKeyed (m : Store) : Prop :=
  NoDup (keys m) /\ Forall (fun kv => id (snd kv) = fst kv) m.

(** One request that can write: a clock-in, whose [randomUUID()] is an id
    the store does not hold yet, or a clock-out. *)
Inductive step (tza : Z -> Z) : Store -> Store -> Prop :=
| step_clockIn (now now' : Date) (uuid : string) (reqBody : Body) (m : Store) :
    ~ In uuid (keys m) ->
    step tza m (snd (clockIn tza now now' uuid reqBody m))
| step_clockOut (now : Date) (reqBody : Body) (m : Store) :
    step tza m (snd (clockOut now reqBody m)).

(** The stores a run of the server can reach from [m]. *)
Inductive reachable (tza : Z -> Z) (m : Store) : Store -> Prop :=
| reachable_here : reachable tza m m
| reachable_step (m' m'' : Store) :
    reachable tza m m' -> step tza m' m'' -> reachable tza m m''.

(** The session stored under an id has no clock-out time, or has one. *)
Definition isOpen (recordId : string) (m : Store) : Prop :=
  exists r, get m recordId = Some r /\ clockOutTime r = None.

Definition isClosed (recordId : string) (m : Store) : Prop :=
  exists r t, get m recordId = Some r /\ clockOutTime r = Some t.

(** The session [r] is in the store as it was created, and is what the
    duplicate check of a clock-in for its employee and day finds. *)
Definition blocking (r : AttendanceRecord) (m : Store) : Prop :=
  get m (id r) = Some r
  /\ clockOutTime r = None
  /\ getActiveAttendanceRecord (employeeName r) (date r) m = Some r.

(** ** Listing and statistics *)

(** A session passes the name, department and day fields of a filter; a
    field that is absent or the empty string asks nothing. *)
Definition matchesOther (filters : Filters) (r : AttendanceRecord) : bool :=
  (negb (truthyOpt truthyString (f_employeeName filters))
   || includes (toLowerCase (employeeName r))
        (toLowerCase (orElse (f_employeeName filters) "")))
  && (negb (truthyOpt truthyString (f_department filters))
      || String.eqb (department r) (orElse (f_department filters) ""))
  && (negb (truthyOpt truthyString (f_date filters))
      || String.eqb (date r) (orElse (f_date filters) "")).

(** A session passes every field of a filter. *)
Definition matchesFilters (filters : Filters) (r : AttendanceRecord) : bool :=
  matchesOther filters r
  && (negb (truthyOpt truthyNumber (f_minHours filters))
      || hoursAtLeast (orElse (f_minHours filters) zero) r).

(** A session with its total hours set, for the examples. *)
Definition withHours (r : AttendanceRecord) (stat : string) (hours : float)
  : AttendanceRecord :=
  {| id := id r; employeeName := employeeName r; department := department r;
     clockInTime := clockInTime r;
     clockOutTime := Some (clockInTime r + 1);
     totalHours := Some (hoursText hours);
     status := stat; date := date r |}.

(** The sessions whose day is the UTC day of [now]. *)
Definition todaySessions (now : Date) (m : Store) : list AttendanceRecord :=
  filter (fun r => String.eqb (date r) (toISODate now)) (values m).


Definition isClosedSession (r : AttendanceRecord) : bool :=
  match clockOutTime r with Some _ => true | None => false end.




Definition roundTo2 (x : float) : float := (Math_round (x * 100) / 100)%float.

(** ** Total hours *)

(** The duration between two instants, in hours. *)
Definition hoursBetween (clockIn clockOut : Date) : float :=
  (numberOfZ (clockOut - clockIn) / numberOfZ msPerHour)%float.

(** [check] holds of the [n] integers from [from] on. *)
Fixpoint allFrom (check : Z -> bool) (from : Z) (n : nat) : bool :=
  match n with
  | O => true
  | S k => if check from then allFrom check (from + 1) k else false
  end.

(** The Number that [calculateHours] stores for a duration of [d]
    milliseconds is [n / 100] for a whole [n] that is within half a
    hundredth of an hour (18000 ms) of the duration. *)
Definition nearestHundredth (d : Z) : bool :=
  let x := parseFloat (calculateHours 0 d) in
  let n := d / 36000 in
  if PrimFloat.Leibniz.eqb x (numberOfZ n / 100)
  then d - 36000 * n <=? 18000
  else if PrimFloat.Leibniz.eqb x (numberOfZ (n + 1) / 100)
       then 36000 * (n + 1) - d <=? 18000
       else false.

(** A comparator that puts the larger key first, the test that a key has a
    given value, and the order the comparator sorts into. *)
Definition laterFirst {A : Type} (key : A -> Z) (a b : A) : Z := key b - key a.
Definition keyIs {A : Type} (key : A -> Z) (t : Z) (a : A) : bool := key a =? t.
Definition notBefore {A : Type} (key : A -> Z) (a b : A) : Prop := key b <= key a.

(** ** Invariants of the stored sessions *)

(** A session is open ([active], no clock-out time, no total hours) or
    closed ([completed], with the clock-out time and the total hours
    computed from it). *)
Definition lifecycle (r : AttendanceRecord) : Prop :=
  (status r = "active" /\ clockOutTime r = None /\ totalHours r = None)
  \/ (status r = "completed"
      /\ exists t, clockOutTime r = Some t
                   /\ totalHours r = Some (calculateHours (clockInTime r) t)).

(** No employee has two sessions of one day that the duplicate check would
    find. *)
Definition oneOpenPerDay (m : Store) : Prop :=
  forall name day : string,
    (List.length (filter (isActiveFor name day) (values m)) <= 1)%nat.

(** [r'] is the session [r] as far as the fields fixed at creation go. *)
Definition sameSession (r r' : AttendanceRecord) : Prop :=
  id r' = id r /\ employeeName r' = employeeName r
  /\ department r' = department r /\ clockInTime r' = clockInTime r
  /\ date r' = date r.

(** The filter of a request without query parameters, and an update
    without fields. *)
Definition noFilters : Filters := mkFilters None None None None.

Definition noUpdates : PartialAttendanceRecord :=
  mkPartial None None None None None None None None.

(** The test of the name field of a filter. *)
Definition nameContains (query : string) (r : AttendanceRecord) : bool :=
  includes (toLowerCase (employeeName r)) (toLowerCase query).

(** ** Reading a day key back *)

(** The day number of a civil date, proleptic Gregorian calendar. *)
Definition daysFromCivil (y m d : Z) : Z :=
  let y' := if m <=? 2 then y - 1 else y in
  let era := y' / 400 in
  let yoe := y' - era * 400 in
  let doy := (153 * (if 2 <? m then m - 3 else m + 9) + 2) / 5 + d - 1 in
  let doe := yoe * 365 + yoe / 4 - yoe / 100 + doy in
  era * 146097 + doe - 719468.

(** The number written by a run of decimal digits, [None] for any other
    character. *)
Fixpoint readDigits (acc : Z) (s : string) : option Z :=
  match s with
  | EmptyString => Some acc
  | String c rest =>
      let n := Z.of_nat (nat_of_ascii c) in
      if (48 <=? n) && (n <=? 57) then readDigits (10 * acc + (n - 48)) rest
      else None
  end.

(** The day number that a key [YYYY-MM-DD] names. *)
Definition dayOfKey (key : string) : option Z :=
  match readDigits 0 (substring 0 4 key),
        readDigits 0 (substring 5 2 key),
        readDigits 0 (substring 8 2 key) with
  | Some y, Some m, Some d =>
      if (String.length key =? 10)%nat
         && String.eqb (substring 4 1 key) "-"
         && String.eqb (substring 7 1 key) "-"
      then Some (daysFromCivil y m d)
      else None
  | _, _, _ => None
  end.

(** The last day of 2099, as a day number. *)
Definition lastDayOf2099 : Z := 47481.

(** The answers the two writing handlers can give. *)
Definition clockInAnswer (response : Response) : Prop :=
  ValidationError response
  \/ (exists existing, response = DuplicateSessionError existing)
  \/ (exists r, response = Created r /\ status r = "active"
                /\ clockOutTime r = None /\ totalHours r = None).

Definition clockOutAnswer (response : Response) : Prop :=
  ValidationError response
  \/ response = NotFoundError
  \/ response = AlreadyClosedError
  \/ (exists r t, response = Created r /\ status r = "completed"
                  /\ clockOutTime r = Some t).

(** ** The server's calendar day *)

(** A server clock five and a half hours ahead of UTC. *)
Definition ist : Z -> Z := fun _ => 19800000.

(** The calendar day of an instant on the server's clock, as
    [YYYY-MM-DD]. *)
Definition localDate (tza : Z -> Z) (t : Date) : string :=
  toISODate (LocalTime tza t).

(** ** ASCII text *)

(** Every character of the string is below 128. *)
Fixpoint isAscii (s : string) : bool :=
  match s with
  | EmptyString => true
  | String c s' => Nat.ltb (nat_of_ascii c) 128 && isAscii s'
  end.

(** ** Rounding to a whole number and to a tenth *)



(** * Properties *)

(** ** The map *)

Lemma get_set_same (m : Store) (k : string) (v : AttendanceRecord) :
  get (set m k v) k = Some v.
Proof.
  induction m as [|[k' v'] m IH]; simpl.
  - now rewrite String.eqb_refl.
  - destruct (String.eqb k' k) eqn:E; simpl; rewrite E; auto.
Qed.

Lemma get_set_other (m : Store) (k k' : string) (v : AttendanceRecord) :
  k <> k' -> get (set m k v) k' = get m k'.
Proof.
  intros Hne.
  induction m as [|[k0 v0] m IH]; simpl.
  - destruct (String.eqb k k') eqn:E; auto.
    apply String.eqb_eq in E. contradiction.
  - destruct (String.eqb k0 k) eqn:E; simpl.
    + apply String.eqb_eq in E. subst k0.
      destruct (String.eqb k k') eqn:E'; auto.
      apply String.eqb_eq in E'. contradiction.
    + now rewrite IH.
Qed.

Lemma get_In (m : Store) (k : string) (v : AttendanceRecord) :
  get m k = Some v -> In v (values m).
Proof.
  induction m as [|[k0 v0] m IH]; simpl; [discriminate|].
  destruct (String.eqb k0 k); intros H.
  - left. congruence.
  - right. auto.
Qed.

(** ** Lateness classification *)

Lemma determineStatus_cases (tza : Z -> Z) (t : Date) :
  determineStatus tza t = "late" \/ determineStatus tza t = "active".
Proof.
  unfold determineStatus.
  destruct ((9 <? getHours tza t) || ((getHours tza t =? 9) && (15 <? getMinutes tza t)));
    auto.
Qed.

Lemma determineStatus_late_iff (tza : Z -> Z) (t : Date) :
  determineStatus tza t = "late" <->
  9 < getHours tza t \/ (getHours tza t = 9 /\ 15 < getMinutes tza t).
Proof.
  unfold determineStatus.
  destruct ((9 <? getHours tza t) || ((getHours tza t =? 9) && (15 <? getMinutes tza t)))
    eqn:E.
  - split; [intros _|reflexivity].
    apply orb_true_iff in E. destruct E as [E|E]; [left; lia|right].
    apply andb_true_iff in E. lia.
  - split; [discriminate|].
    apply orb_false_iff in E. destruct E as [E1 E2].
    apply andb_false_iff in E2. lia.
Qed.

(** C2, as the code has it. The status is [late] exactly when the local
    hour is past 9, or is 9 with the minute past 15, and [active] otherwise;
    seconds play no part. So 09:15:00 and 09:00:00 are [active], the whole
    minute 09:15 (09:15:01 and 09:15:59 included) is [active], and 09:16:00 is
    the first [late] instant. *)
Theorem determineStatus_minute_cutoff :
  (forall (tza : Z -> Z) (t : Date),
      (determineStatus tza t = "late" <->
       9 < getHours tza t \/ (getHours tza t = 9 /\ 15 < getMinutes tza t))
      /\ (determineStatus tza t = "active" <->
          ~ (9 < getHours tza t \/ (getHours tza t = 9 /\ 15 < getMinutes tza t))))
  /\ determineStatus utc (instant 0 9 15 0) = "active"
  /\ determineStatus utc (instant 0 9 0 0) = "active"
  /\ determineStatus utc (instant 0 9 15 1) = "active"
  /\ determineStatus utc (instant 0 9 15 59) = "active"
  /\ determineStatus utc (instant 0 9 16 0) = "late".
Proof.
  split; [|repeat split; reflexivity].
  intros tza t. split; [apply determineStatus_late_iff|].
  rewrite <- determineStatus_late_iff.
  destruct (determineStatus_cases tza t) as [H|H]; rewrite H; split; intros H'.
  - discriminate.
  - exfalso. now apply H'.
  - discriminate.
  - reflexivity.
Qed.

(** C2 does not hold at 09:15:01: one second past 09:15 the status is
    still [active]. *)
Lemma determineStatus_09_15_01_not_late :
  determineStatus utc (instant 0 9 15 1) = "active"
  /\ determineStatus utc (instant 0 9 15 1) <> "late".
Proof. split; [reflexivity|discriminate]. Qed.

(** ** Creation overwrites the status *)

Lemma find_app_fresh {A : Type} (f : A -> bool) (l : list A) (x : A) :
  existsb f l = false -> f x = true -> find f (l ++ [x]) = Some x.
Proof.
  induction l as [|y l IH]; simpl; intros Hl Hx.
  - now rewrite Hx.
  - apply orb_false_iff in Hl. destruct Hl as [Hy Hl].
    rewrite Hy. auto.
Qed.

(** C10. Whatever the insert argument holds, its status included, the
    record that [createAttendanceRecord] returns has status [active] and no
    clock-out time and no total hours, and that record is the one stored
    under the new id; this holds for the map-backed store and, whenever the
    insert goes through, for the SQL-backed one (which refuses only an id the
    table already has). *)
Theorem createAttendanceRecord_status_overwritten
    (uuid : string) (record : InsertAttendance) :
  (forall m : Store,
      let r := fst (MemStorage.createAttendanceRecord uuid record m) in
      let m' := snd (MemStorage.createAttendanceRecord uuid record m) in
      status r = "active" /\ clockOutTime r = None /\ totalHours r = None
      /\ MemStorage.getAttendanceRecord uuid m' = Some r)
  /\ (forall t : DatabaseStorage.Table,
         match DatabaseStorage.createAttendanceRecord uuid record t with
         | Some (r, t') =>
             status r = "active" /\ clockOutTime r = None /\ totalHours r = None
             /\ DatabaseStorage.getAttendanceRecord uuid t' = Some r
         | None => existsb (DatabaseStorage.hasId uuid) t = true
         end).
Proof.
  split.
  - intros m. simpl. repeat split.
    unfold MemStorage.getAttendanceRecord. apply get_set_same.
  - intros t.
    unfold DatabaseStorage.createAttendanceRecord, DatabaseStorage.insertReturning.
    cbn [id].
    destruct (existsb (DatabaseStorage.hasId uuid) t) eqn:E; [reflexivity|].
    repeat split.
    unfold DatabaseStorage.getAttendanceRecord.
    apply find_app_fresh; [exact E|].
    unfold DatabaseStorage.hasId. cbn [id]. apply String.eqb_refl.
Qed.

(** ** Clock-in *)

Lemma clockIn_duplicate (tza : Z -> Z) (now now' : Date) (uuid : string)
    (reqBody : Body) (storage : Store) (data : ClockInData)
    (existing : AttendanceRecord) :
  clockInSchema reqBody = inl data ->
  getActiveAttendanceRecord (data_employeeName data) (toISODate now) storage
  = Some existing ->
  clockIn tza now now' uuid reqBody storage
  = (DuplicateSessionError (id existing), storage).
Proof.
  intros Hp Ha. unfold clockIn. now rewrite Hp, Ha.
Qed.

Lemma clockIn_created (tza : Z -> Z) (now now' : Date) (uuid : string)
    (reqBody : Body) (storage : Store) (data : ClockInData) :
  clockInSchema reqBody = inl data ->
  getActiveAttendanceRecord (data_employeeName data) (toISODate now) storage
  = None ->
  let r := newSession uuid (data_employeeName data) (data_department data)
             (toISODate now) now' in
  clockIn tza now now' uuid reqBody storage = (Created r, set storage uuid r).
Proof.
  intros Hp Ha. unfold clockIn. now rewrite Hp, Ha.
Qed.

Lemma clockIn_rejected (tza : Z -> Z) (now now' : Date) (uuid : string)
    (reqBody : Body) (storage : Store) (issues : list ZodIssue) :
  clockInSchema reqBody = inr issues ->
  clockIn tza now now' uuid reqBody storage = (zodErrorResponse issues, storage).
Proof.
  intros Hp. unfold clockIn. now rewrite Hp.
Qed.

(** C1, evaluated where the code departs from it. A clock-in at 10:00 is
    classified [late] by [determineStatus], the handler passes that status
    to the store, and the session stored and returned has status [active]. *)
Theorem clockIn_at_ten_is_stored_active :
  let now := instant 19000 10 0 0 in
  let r := newSession "6f1c" "Ada" "Other" "2022-01-08" now in
  determineStatus utc now = "late"
  /\ clockIn utc now now "6f1c" (clockInBody "Ada" "Other") []
     = (Created r, [("6f1c", r)])
  /\ status r = "active".
Proof. repeat split; vm_compute; reflexivity. Qed.

(** ** Validation *)

Lemma length_departments : List.length departments = 10%nat.
Proof. reflexivity. Qed.

Lemma nonempty_min1 (s : string) :
  s <> "" -> (1 <=? Z.of_nat (String.length s)) = true.
Proof.
  destruct s as [|c s]; [congruence|]. intros _.
  apply Z.leb_le. simpl String.length. lia.
Qed.

Lemma zStringMin1_accepts (path message s : string) :
  s <> "" -> zStringMin1 path message (JString s) = inl s.
Proof.
  intros H. unfold zStringMin1. now rewrite nonempty_min1.
Qed.

Lemma zStringMin1_rejects (path message : string) (v : JsonValue) :
  emptyOrNoString v ->
  zStringMin1 path message v = inr [invalid_type path]
  \/ zStringMin1 path message v = inr [too_small path message].
Proof.
  destruct v as [|s|]; simpl; intros H; auto.
  subst s. simpl. auto.
Qed.

Lemma existsb_eqb_In (s : string) (l : list string) :
  existsb (String.eqb s) l = true <-> In s l.
Proof.
  rewrite existsb_exists. split.
  - intros [x [Hx E]]. apply String.eqb_eq in E. now subst.
  - intros H. exists s. split; [exact H|apply String.eqb_refl].
Qed.

Lemma zEnum_accepts (path s : string) :
  In s departments -> zEnum departments path (JString s) = inl s.
Proof.
  intros H. unfold zEnum.
  now rewrite (proj2 (existsb_eqb_In s departments) H).
Qed.

Lemma zEnum_rejects (path : string) (v : JsonValue) :
  noDepartment v ->
  zEnum departments path v = inr [invalid_type path]
  \/ zEnum departments path v = inr [invalid_enum_value path].
Proof.
  unfold zEnum, noDepartment.
  destruct v as [|s|]; intros H; auto.
  destruct (existsb (String.eqb s) departments) eqn:E; auto.
  apply existsb_eqb_In in E. contradiction.
Qed.

Lemma zStringMin1_issues (path message : string) (v : JsonValue)
    (issues : list ZodIssue) :
  zStringMin1 path message v = inr issues ->
  issues = [invalid_type path] \/ issues = [too_small path message].
Proof.
  unfold zStringMin1. destruct v as [|s|]; try (intros H; injection H; auto).
  destruct (1 <=? Z.of_nat (String.length s)); [discriminate|].
  intros H; injection H; auto.
Qed.

Lemma clockInSchema_rejects (props : list (string * JsonValue)) :
  emptyOrNoString (getProp props "employeeName")
  \/ noDepartment (getProp props "department") ->
  exists issue rest,
    In issue schemaIssues
    /\ clockInSchema (BodyObject props) = inr (issue :: rest).
Proof.
  unfold clockInSchema. intros [H|H].
  - destruct (zStringMin1_rejects "employeeName" "Employee name is required" _ H)
      as [Hi|Hi]; rewrite Hi; simpl; eexists; eexists;
      (split; [|reflexivity]); simpl; tauto.
  - destruct (zStringMin1 "employeeName" "Employee name is required"
                (getProp props "employeeName")) as [n|issues] eqn:En.
    + destruct (zEnum_rejects "department" _ H) as [Hi|Hi]; rewrite Hi; simpl;
        eexists; eexists; (split; [|reflexivity]); simpl; tauto.
    + destruct (zStringMin1_issues _ _ _ _ En) as [->| ->];
        destruct (zEnum _ _ _); simpl; eexists; eexists;
        (split; [|reflexivity]); simpl; tauto.
Qed.

Lemma clockOutSchema_rejects (props : list (string * JsonValue)) :
  emptyOrNoString (getProp props "recordId") ->
  exists issue,
    In issue schemaIssues /\ clockOutSchema (BodyObject props) = inr [issue].
Proof.
  unfold clockOutSchema. intros H.
  destruct (zStringMin1_rejects "recordId" "Record ID is required" _ H)
    as [Hi|Hi]; rewrite Hi; eexists; (split; [|reflexivity]); simpl; tauto.
Qed.

Lemma clockOutSchema_accepts (recordId : string) :
  recordId <> "" ->
  clockOutSchema (clockOutBody recordId) = inl (mkClockOutData recordId).
Proof.
  intros H. unfold clockOutSchema, clockOutBody. simpl getProp.
  now rewrite zStringMin1_accepts.
Qed.

Lemma clockInSchema_accepts (name dept : string) :
  name <> "" -> In dept departments ->
  clockInSchema (clockInBody name dept) = inl (mkClockInData name dept).
Proof.
  intros Hn Hd. unfold clockInSchema, clockInBody. simpl getProp.
  now rewrite zStringMin1_accepts, zEnum_accepts.
Qed.

(** C9, as the code has it. The name is not trimmed. A clock-in whose
    [employeeName] is the empty string or no string, or whose [department]
    is not one of the ten listed, fails with a validation error; so does a
    clock-out whose [recordId] is the empty string or no string; in both
    cases the store is left as it was. Any name of at least one character,
    blank ones included, passes validation with a listed department. *)
Theorem validation_without_trim :
  List.length departments = 10%nat
  /\ (forall (tza : Z -> Z) (now now' : Date) (uuid : string)
        (props : list (string * JsonValue)) (storage : Store),
        emptyOrNoString (getProp props "employeeName")
        \/ noDepartment (getProp props "department") ->
        ValidationError (fst (clockIn tza now now' uuid (BodyObject props) storage))
        /\ snd (clockIn tza now now' uuid (BodyObject props) storage) = storage)
  /\ (forall (now : Date) (props : list (string * JsonValue)) (storage : Store),
        emptyOrNoString (getProp props "recordId") ->
        ValidationError (fst (clockOut now (BodyObject props) storage))
        /\ snd (clockOut now (BodyObject props) storage) = storage)
  /\ (forall name dept : string,
        name <> "" -> In dept departments ->
        clockInSchema (clockInBody name dept) = inl (mkClockInData name dept)).
Proof.
  split; [reflexivity|]. split; [|split].
  - intros tza now now' uuid props storage H.
    destruct (clockInSchema_rejects props H) as (i & rest & Hin & Hi).
    rewrite (clockIn_rejected _ _ _ _ _ _ _ Hi). simpl.
    split; [now exists i|reflexivity].
  - intros now props storage H.
    destruct (clockOutSchema_rejects props H) as (i & Hin & Hi).
    unfold clockOut. rewrite Hi. simpl.
    split; [now exists i|reflexivity].
  - apply clockInSchema_accepts.
Qed.

(** An empty name, an empty record id and a well-formed clock-in. *)
Lemma validation_without_trim_witness :
  (ValidationError
     (fst (clockIn utc 0 0 "6f1c" (clockInBody "" "Other") []))
   /\ snd (clockIn utc 0 0 "6f1c" (clockInBody "" "Other") []) = [])
  /\ (ValidationError (fst (clockOut 0 (clockOutBody "") []))
      /\ snd (clockOut 0 (clockOutBody "") []) = [])
  /\ clockInSchema (clockInBody "Ada" "Other") = inl (mkClockInData "Ada" "Other").
Proof.
  destruct validation_without_trim as [_ [Hin [Hout Hok]]].
  split; [|split].
  - apply Hin. left. reflexivity.
  - apply Hout. reflexivity.
  - apply Hok; [discriminate|].
    simpl. repeat (try (left; reflexivity); right).
Defined.

(** C9 does not hold for a blank name: a name of one space is empty after
    trimming, yet the clock-in is accepted and a session is stored. *)
Lemma blank_name_is_accepted :
  trim " " = ""
  /\ clockIn utc 0 0 "6f1c" (clockInBody " " "Other") []
     = (Created (newSession "6f1c" " " "Other" "1970-01-01" 0),
        [("6f1c", newSession "6f1c" " " "Other" "1970-01-01" 0)])
  /\ ~ ValidationError
         (fst (clockIn utc 0 0 "6f1c" (clockInBody " " "Other") [])).
Proof.
  split; [reflexivity|]. split; [reflexivity|].
  intros (i & _ & H). vm_compute in H. discriminate.
Qed.

(** ** Clock-out *)

Lemma clockOut_not_found (now : Date) (reqBody : Body) (storage : Store)
    (data : ClockOutData) :
  clockOutSchema reqBody = inl data ->
  get storage (data_recordId data) = None ->
  clockOut now reqBody storage = (NotFoundError, storage).
Proof.
  intros Hp Hg. unfold clockOut, getAttendanceRecord. now rewrite Hp, Hg.
Qed.

Lemma clockOut_already_closed (now : Date) (reqBody : Body) (storage : Store)
    (data : ClockOutData) (r : AttendanceRecord) (t : Date) :
  clockOutSchema reqBody = inl data ->
  get storage (data_recordId data) = Some r ->
  clockOutTime r = Some t ->
  clockOut now reqBody storage = (AlreadyClosedError, storage).
Proof.
  intros Hp Hg Hc. unfold clockOut, getAttendanceRecord. now rewrite Hp, Hg, Hc.
Qed.

Lemma clockOut_closes (now : Date) (reqBody : Body) (storage : Store)
    (data : ClockOutData) (r : AttendanceRecord) :
  clockOutSchema reqBody = inl data ->
  get storage (data_recordId data) = Some r ->
  clockOutTime r = None ->
  id r = data_recordId data ->
  clockOut now reqBody storage
  = (Created (closedSession r now), set storage (id r) (closedSession r now)).
Proof.
  intros Hp Hg Hc Hid.
  unfold clockOut, getAttendanceRecord, updateAttendanceRecord.
  rewrite Hp, Hg, Hc, Hid, Hg. reflexivity.
Qed.

(** C4. A clock-out for an id the store does not hold fails with the
    not-found error; a clock-out for a session that already has a clock-out
    time fails with the already-closed error; both leave the store as it
    was. For an open session stored under its own id the first clock-out
    succeeds and every later one fails with the already-closed error,
    leaving the store as the first one made it. *)
Theorem clockOut_failures (recordId : string) (storage : Store) :
  recordId <> "" ->
  (get storage recordId = None ->
   forall now : Date,
     clockOut now (clockOutBody recordId) storage = (NotFoundError, storage))
  /\ (forall (r : AttendanceRecord) (t : Date),
         get storage recordId = Some r -> clockOutTime r = Some t ->
         forall now : Date,
           clockOut now (clockOutBody recordId) storage
           = (AlreadyClosedError, storage))
  /\ (forall r : AttendanceRecord,
         get storage recordId = Some r -> clockOutTime r = None ->
         id r = recordId ->
         forall now : Date,
         exists (r' : AttendanceRecord) (storage' : Store),
           clockOut now (clockOutBody recordId) storage = (Created r', storage')
           /\ get storage' recordId = Some r'
           /\ clockOutTime r' = Some now
           /\ forall later : Date,
               clockOut later (clockOutBody recordId) storage'
               = (AlreadyClosedError, storage')).
Proof.
  intros Hne.
  pose proof (clockOutSchema_accepts recordId Hne) as Hp.
  split; [|split].
  - intros Hg now. now apply (clockOut_not_found now _ _ _ Hp).
  - intros r t Hg Hc now. now apply (clockOut_already_closed now _ _ _ r t Hp).
  - intros r Hg Hc Hid now.
    exists (closedSession r now), (set storage (id r) (closedSession r now)).
    split; [now apply clockOut_closes with (data := mkClockOutData recordId)|].
    assert (Hg' : get (set storage (id r) (closedSession r now)) recordId
                  = Some (closedSession r now))
      by (rewrite Hid; apply get_set_same).
    split; [exact Hg'|]. split; [reflexivity|].
    intros later.
    now apply (clockOut_already_closed later _ _ _ (closedSession r now) now Hp).
Qed.

(** An unknown id, a closed session and an open one. *)
Lemma clockOut_failures_witness :
  let open := newSession "6f1c" "Ada" "Other" "1970-01-01" 0 in
  let closed := closedSession open 9000000 in
  clockOut 5 (clockOutBody "0000") [("6f1c", open)]
  = (NotFoundError, [("6f1c", open)])
  /\ clockOut 9000001 (clockOutBody "6f1c") [("6f1c", closed)]
     = (AlreadyClosedError, [("6f1c", closed)])
  /\ exists (r' : AttendanceRecord) (storage' : Store),
       clockOut 9000000 (clockOutBody "6f1c") [("6f1c", open)] = (Created r', storage')
       /\ get storage' "6f1c" = Some r'
       /\ clockOutTime r' = Some 9000000
       /\ forall later : Date,
           clockOut later (clockOutBody "6f1c") storage'
           = (AlreadyClosedError, storage').
Proof.
  intros open closed. split; [|split].
  - apply (clockOut_failures "0000" [("6f1c", open)]); [discriminate|reflexivity].
  - apply (proj1 (proj2 (clockOut_failures "6f1c" [("6f1c", closed)]
                           ltac:(discriminate))) closed 9000000);
      reflexivity.
  - apply (proj2 (proj2 (clockOut_failures "6f1c" [("6f1c", open)]
                           ltac:(discriminate))) open);
      reflexivity.
Defined.

(** ** Duplicate prevention *)

Lemma isActiveFor_true (name day : string) (r : AttendanceRecord) :
  isActiveFor name day r = true <->
  employeeName r = name /\ date r = day /\ status r = "active".
Proof.
  unfold isActiveFor. rewrite !andb_true_iff, !String.eqb_eq. tauto.
Qed.

Lemma get_None_fresh (m : Store) (k : string) :
  get m k = None <-> ~ In k (keys m).
Proof.
  induction m as [|[k0 v0] m IH]; simpl.
  - tauto.
  - destruct (String.eqb k0 k) eqn:E.
    + apply String.eqb_eq in E. split; [discriminate|]. intros H. exfalso. auto.
    + apply String.eqb_neq in E. rewrite IH. tauto.
Qed.

Lemma set_fresh (m : Store) (k : string) (v : AttendanceRecord) :
  ~ In k (keys m) -> set m k v = (m ++ [(k, v)])%list.
Proof.
  induction m as [|[k0 v0] m IH]; simpl; intros H; [reflexivity|].
  destruct (String.eqb k0 k) eqn:E.
  - apply String.eqb_eq in E. exfalso. auto.
  - rewrite IH; auto.
Qed.

Lemma keys_set_present (m : Store) (k : string) (v : AttendanceRecord) :
  In k (keys m) -> keys (set m k v) = keys m.
Proof.
  induction m as [|[k0 v0] m IH]; simpl; intros H; [contradiction|].
  destruct (String.eqb k0 k) eqn:E; simpl; [reflexivity|].
  apply String.eqb_neq in E. f_equal. apply IH. tauto.
Qed.

Lemma wellKeyed_set (m : Store) (k : string) (v : AttendanceRecord) :
  wellKeyed m -> id v = k -> wellKeyed (set m k v).
Proof.
  intros [Hnd Hid] Hv. split.
  - destruct (in_dec string_dec k (keys m)) as [Hin|Hout].
    + now rewrite keys_set_present.
    + rewrite set_fresh by assumption. unfold keys. rewrite map_app. simpl.
      apply NoDup_app; auto.
      * constructor; [tauto|constructor].
      * intros x Hx [Hx'|[]]. subst. contradiction.
  - clear Hnd. induction m as [|[k0 v0] m IH]; simpl.
    + constructor; [exact Hv|constructor].
    + inversion Hid as [|? ? Hid0 Hid']. simpl in Hid0.
      destruct (String.eqb k0 k) eqn:E.
      * apply String.eqb_eq in E. constructor; [simpl; congruence|assumption].
      * constructor; auto.
Qed.

Lemma find_app_first {A : Type} (f : A -> bool) (l l' : list A) (x : A) :
  find f l = Some x -> find f (l ++ l') = Some x.
Proof.
  induction l as [|y l IH]; simpl; [discriminate|].
  destruct (f y); auto.
Qed.

Lemma find_app_none {A : Type} (f : A -> bool) (l l' : list A) :
  find f l = None -> find f (l ++ l') = find f l'.
Proof.
  induction l as [|y l IH]; simpl; [reflexivity|].
  destruct (f y); [discriminate|auto].
Qed.

Lemma find_set_other (f : AttendanceRecord -> bool) (m : Store) (k : string)
    (v r : AttendanceRecord) :
  Forall (fun kv => id (snd kv) = fst kv) m ->
  find f (values m) = Some r -> k <> id r -> f v = false ->
  find f (values (set m k v)) = Some r.
Proof.
  intros Hid Hf Hk Hv.
  induction m as [|[k0 v0] m IH]; simpl in *; [discriminate|].
  inversion Hid as [|? ? Hid0 Hid']; subst. simpl in Hid0.
  destruct (f v0) eqn:E0.
  - injection Hf as ->.
    destruct (String.eqb k0 k) eqn:E.
    + apply String.eqb_eq in E. congruence.
    + simpl. now rewrite E0.
  - destruct (String.eqb k0 k) eqn:E; simpl.
    + now rewrite Hv.
    + rewrite E0. auto.
Qed.

Lemma find_present {A : Type} (f : A -> bool) (l : list A) (x : A) :
  In x l -> f x = true -> exists y, find f l = Some y.
Proof.
  intros Hin Hx. destruct (find f l) as [y|] eqn:E; [eauto|].
  rewrite (find_none f l E x Hin) in Hx. discriminate.
Qed.

(** What a step does to the store: nothing, a new session under a fresh
    id, or the closing of an open session stored under [key]. *)
Lemma step_cases (tza : Z -> Z) (m m' : Store) :
  step tza m m' ->
  m' = m
  \/ (exists uuid name dept day t,
         ~ In uuid (keys m)
         /\ getActiveAttendanceRecord name day m = None
         /\ m' = (m ++ [(uuid, newSession uuid name dept day t)])%list)
  \/ (exists key r now,
         get m key = Some r /\ clockOutTime r = None
         /\ ((exists r0, get m (id r) = Some r0
                         /\ m' = set m (id r) (spread r0
                                  (mkPartial None None None None (Some (Some now))
                                     (Some (Some (calculateHours (clockInTime r) now)))
                                     (Some "completed") None)))
             \/ m' = m)).
Proof.
  intros [now now' uuid reqBody m0 Hfresh|now reqBody m0].
  - unfold clockIn.
    destruct (clockInSchema reqBody) as [data|issues]; [|now left].
    destruct (getActiveAttendanceRecord _ _ m0) eqn:Ha; [now left|].
    right. left. simpl.
    exists uuid, (data_employeeName data), (data_department data),
      (toISODate now), now'.
    split; [assumption|]. split; [assumption|].
    now apply set_fresh.
  - unfold clockOut, getAttendanceRecord.
    destruct (clockOutSchema reqBody) as [data|issues]; [|now left].
    destruct (get m0 (data_recordId data)) as [r|] eqn:Hg; [|now left].
    destruct (clockOutTime r) eqn:Hc; [now left|].
    right. right. exists (data_recordId data), r, now.
    split; [assumption|]. split; [assumption|].
    unfold updateAttendanceRecord.
    destruct (get m0 (id r)) as [r0|] eqn:Hg0; [left|right; reflexivity].
    exists r0. split; reflexivity.
Qed.

Lemma wellKeyed_get (m : Store) (k : string) (r : AttendanceRecord) :
  wellKeyed m -> get m k = Some r -> id r = k.
Proof.
  intros [_ Hid]. induction m as [|[k0 v0] m IH]; simpl; [discriminate|].
  inversion Hid as [|? ? Hid0 Hid']. simpl in Hid0.
  destruct (String.eqb k0 k) eqn:E; [|auto].
  apply String.eqb_eq in E. intros Hr. injection Hr as <-. congruence.
Qed.

Lemma step_cases_wellKeyed (tza : Z -> Z) (m m' : Store) :
  wellKeyed m -> step tza m m' ->
  m' = m
  \/ (exists uuid name dept day t,
         ~ In uuid (keys m)
         /\ getActiveAttendanceRecord name day m = None
         /\ m' = set m uuid (newSession uuid name dept day t))
  \/ (exists r now,
         get m (id r) = Some r /\ clockOutTime r = None
         /\ m' = set m (id r) (closedSession r now)).
Proof.
  intros Hwk Hstep.
  destruct (step_cases tza m m' Hstep)
    as [H|[(uuid & name & dept & day & t & Hf & Ha & H)
          |(key & r & now & Hg & Hc & [(r0 & Hg0 & H)|H])]]; auto.
  - right. left. exists uuid, name, dept, day, t.
    rewrite set_fresh by assumption. auto.
  - right. right. exists r, now.
    pose proof (wellKeyed_get m key r Hwk Hg) as Hid.
    rewrite Hid in Hg0. assert (r0 = r) by congruence. subst r0.
    rewrite Hid. rewrite <- Hid at 1. split; [congruence|]. split; [assumption|].
    rewrite H, Hid. reflexivity.
Qed.

Lemma step_wellKeyed (tza : Z -> Z) (m m' : Store) :
  wellKeyed m -> step tza m m' -> wellKeyed m'.
Proof.
  intros Hwk Hstep.
  destruct (step_cases_wellKeyed tza m m' Hwk Hstep)
    as [->|[(uuid & name & dept & day & t & _ & _ & ->)|(r & now & _ & _ & ->)]];
    auto; now apply wellKeyed_set.
Qed.

Lemma step_isClosed (tza : Z -> Z) (m m' : Store) (recordId : string) :
  wellKeyed m -> step tza m m' -> isClosed recordId m -> isClosed recordId m'.
Proof.
  intros Hwk Hstep (x & t & Hx & Ht).
  destruct (step_cases_wellKeyed tza m m' Hwk Hstep)
    as [->|[(uuid & name & dept & day & t' & Hf & _ & ->)|(r & now & Hg & Hc & ->)]].
  - now exists x, t.
  - exists x, t. split; [|assumption].
    rewrite get_set_other; [assumption|].
    intros ->. apply get_None_fresh in Hf. congruence.
  - exists x, t. split; [|assumption].
    rewrite get_set_other; [assumption|].
    intros E. rewrite E in Hg. congruence.
Qed.

Lemma step_blocking (tza : Z -> Z) (m m' : Store) (r : AttendanceRecord) :
  wellKeyed m -> step tza m m' -> blocking r m ->
  blocking r m' \/ isClosed (id r) m'.
Proof.
  intros Hwk Hstep (Hg & Hc & Ha).
  destruct (step_cases_wellKeyed tza m m' Hwk Hstep)
    as [->|[(uuid & name & dept & day & t & Hf & _ & ->)|(x & now & Hx & Hxc & ->)]].
  - left. now repeat split.
  - left. assert (Hne : uuid <> id r).
    { intros ->. apply get_None_fresh in Hf. congruence. }
    repeat split; auto.
    + now rewrite get_set_other.
    + rewrite set_fresh by assumption.
      unfold getActiveAttendanceRecord, values in *. rewrite map_app.
      now apply find_app_first.
  - destruct (string_dec (id x) (id r)) as [E|E].
    + right. exists (closedSession x now), now.
      split; [rewrite <- E; apply get_set_same|reflexivity].
    + left. repeat split; auto.
      * now rewrite get_set_other.
      * unfold getActiveAttendanceRecord in *.
        apply find_set_other; auto.
        -- apply Hwk.
        -- simpl. now rewrite andb_false_r.
Qed.

Lemma reachable_wellKeyed (tza : Z -> Z) (m m' : Store) :
  wellKeyed m -> reachable tza m m' -> wellKeyed m'.
Proof.
  intros Hwk Hr. induction Hr; eauto using step_wellKeyed.
Qed.

Lemma reachable_blocking (tza : Z -> Z) (m m' : Store) (r : AttendanceRecord) :
  wellKeyed m -> blocking r m -> reachable tza m m' ->
  blocking r m' \/ isClosed (id r) m'.
Proof.
  intros Hwk Hb Hr. induction Hr as [|m' m'' Hr IH Hstep]; [now left|].
  pose proof (reachable_wellKeyed tza m m' Hwk Hr) as Hwk'.
  destruct IH as [IH|IH].
  - eapply step_blocking; eauto.
  - right. eapply step_isClosed; eauto.
Qed.

Lemma created_blocking (m : Store) (uuid name dept day : string) (t : Date) :
  ~ In uuid (keys m) ->
  getActiveAttendanceRecord name day m = None ->
  blocking (newSession uuid name dept day t)
    (set m uuid (newSession uuid name dept day t)).
Proof.
  intros Hf Ha. repeat split.
  - apply get_set_same.
  - rewrite set_fresh by assumption.
    unfold getActiveAttendanceRecord, values in *. rewrite map_app.
    rewrite find_app_none by assumption. simpl.
    now rewrite !String.eqb_refl.
Qed.

Lemma clockInSchema_body_inl (name dept : string) (data : ClockInData) :
  clockInSchema (clockInBody name dept) = inl data ->
  data = mkClockInData name dept.
Proof.
  unfold clockInSchema, clockInBody. simpl getProp. unfold zStringMin1, zEnum.
  destruct (1 <=? Z.of_nat (String.length name));
    destruct (existsb (String.eqb dept) departments); simpl; congruence.
Qed.

Lemma clockIn_created_inv (tza : Z -> Z) (now now' : Date) (uuid name dept : string)
    (storage storage' : Store) (r : AttendanceRecord) :
  clockIn tza now now' uuid (clockInBody name dept) storage = (Created r, storage') ->
  getActiveAttendanceRecord name (toISODate now) storage = None
  /\ r = newSession uuid name dept (toISODate now) now'
  /\ storage' = set storage uuid r.
Proof.
  unfold clockIn.
  destruct (clockInSchema (clockInBody name dept)) as [data|issues] eqn:Hp.
  - apply clockInSchema_body_inl in Hp. subst data. simpl.
    destruct (getActiveAttendanceRecord name (toISODate now) storage) eqn:Ha.
    + discriminate.
    + unfold Created. intros H. injection H as <- <-. auto.
  - destruct issues; discriminate.
Qed.

Lemma isOpen_not_isClosed (recordId : string) (m : Store) :
  isOpen recordId m -> isClosed recordId m -> False.
Proof.
  intros (r & Hr & Ho) (r' & t & Hr' & Hc). congruence.
Qed.

(** The duplicate check on a store of any content. It looks for a session
    of the employee and day key whose status is [active]: whenever the store
    holds such a session, a clock-in for that employee under that day key
    fails with the duplicate error, which carries the id of such a session,
    and the store is left as it was. After a clock-in that succeeded on a
    store that keeps each session under its id, and for as long as the
    session it created has no clock-out time, every further clock-in for the
    same employee under the same day key fails with the duplicate error
    carrying that session's id and stores nothing. *)
Lemma duplicate_clock_in_while_active :
  (forall (tza : Z -> Z) (now now' : Date) (uuid name dept : string)
      (storage : Store) (r : AttendanceRecord),
      name <> "" -> In dept departments ->
      In r (values storage) ->
      employeeName r = name -> date r = toISODate now -> status r = "active" ->
      exists r0 : AttendanceRecord,
        In r0 (values storage)
        /\ employeeName r0 = name /\ date r0 = toISODate now
        /\ status r0 = "active"
        /\ clockIn tza now now' uuid (clockInBody name dept) storage
           = (DuplicateSessionError (id r0), storage))
  /\ (forall (tza : Z -> Z) (now now' : Date) (uuid name dept : string)
         (storage storage' : Store) (r : AttendanceRecord),
         wellKeyed storage -> ~ In uuid (keys storage) ->
         clockIn tza now now' uuid (clockInBody name dept) storage
         = (Created r, storage') ->
         forall storage'' : Store,
           reachable tza storage' storage'' -> isOpen (id r) storage'' ->
           forall (later later' : Date) (uuid' dept' : string),
             toISODate later = toISODate now -> name <> "" ->
             In dept' departments ->
             clockIn tza later later' uuid' (clockInBody name dept') storage''
             = (DuplicateSessionError (id r), storage'')).
Proof.
  split.
  - intros tza now now' uuid name dept storage r Hn Hd Hin He Hday Hs.
    destruct (find_present (isActiveFor name (toISODate now)) (values storage) r Hin)
      as [r0 Hr0].
    { apply isActiveFor_true. auto. }
    exists r0. destruct (find_some _ _ Hr0) as [Hin0 Hact].
    apply isActiveFor_true in Hact. destruct Hact as (? & ? & ?).
    repeat split; auto.
    apply clockIn_duplicate with (data := mkClockInData name dept).
    + now apply clockInSchema_accepts.
    + exact Hr0.
  - intros tza now now' uuid name dept storage storage' r Hwk Hf Hc
      storage'' Hreach Hopen later later' uuid' dept' Hday Hn Hd.
    apply clockIn_created_inv in Hc. destruct Hc as (Ha & Hr & Hs).
    assert (Hb : blocking r storage').
    { subst r storage'. now apply created_blocking. }
    assert (Hwk' : wellKeyed storage').
    { subst storage'. apply wellKeyed_set; [assumption|]. now subst r. }
    destruct (reachable_blocking tza storage' storage'' r Hwk' Hb Hreach)
      as [(_ & _ & Hfind)|Hclosed].
    + apply clockIn_duplicate with (data := mkClockInData name dept').
      * now apply clockInSchema_accepts.
      * simpl. rewrite Hday. subst r. exact Hfind.
    + exfalso. eapply isOpen_not_isClosed; eauto.
Qed.

(** The check reads the status and nothing else. On a store that holds an
    open session with status [late] (no run of the two handlers stores one)
    that session does not stop a clock-in of the same employee under the
    same day key, and a second session is stored. *)
Lemma late_session_does_not_block :
  let lateSession :=
    {| id := "0a1b"; employeeName := "Ada"; department := "Other";
       clockInTime := instant 0 10 0 0; clockOutTime := None; totalHours := None;
       status := "late"; date := "1970-01-01" |} in
  let now := instant 0 11 0 0 in
  let second := newSession "6f1c" "Ada" "Other" "1970-01-01" now in
  date lateSession = toISODate now
  /\ clockIn utc now now "6f1c" (clockInBody "Ada" "Other") [("0a1b", lateSession)]
     = (Created second, [("0a1b", lateSession); ("6f1c", second)])
  /\ forall existing : string,
       fst (clockIn utc now now "6f1c" (clockInBody "Ada" "Other")
              [("0a1b", lateSession)])
       <> DuplicateSessionError existing.
Proof.
  intros lateSession now second.
  split; [reflexivity|]. split; [reflexivity|].
  intros existing. vm_compute. discriminate.
Qed.

(** ** Listing: order *)

Section SortByKeyDescending.
Context {A : Type} (key : A -> Z).

Lemma sortInsert_Permutation (x : A) (l : list A) :
  Permutation (sortInsert (laterFirst key) x l) (x :: l).
Proof.
  induction l as [|y l IH]; simpl; [reflexivity|].
  destruct (0 <? laterFirst key x y).
  - rewrite IH. apply perm_swap.
  - reflexivity.
Qed.

Lemma sort_Permutation (l : list A) : Permutation (sort (laterFirst key) l) l.
Proof.
  induction l as [|x l IH]; simpl; [reflexivity|].
  rewrite sortInsert_Permutation. now constructor.
Qed.

Lemma sortInsert_sorted (x : A) (l : list A) :
  StronglySorted (notBefore key) l -> StronglySorted (notBefore key) (sortInsert (laterFirst key) x l).
Proof.
  induction l as [|y l IH]; simpl; intros Hs.
  - repeat constructor.
  - inversion Hs as [|? ? Hl Hy]; subst.
    destruct (0 <? laterFirst key x y) eqn:E.
    + apply Z.ltb_lt in E. constructor; [auto|].
      rewrite sortInsert_Permutation.
      constructor; [unfold notBefore, laterFirst in *; lia|assumption].
    + apply Z.ltb_ge in E. constructor; [assumption|].
      constructor; [unfold notBefore, laterFirst in *; lia|].
      eapply Forall_impl; [|exact Hy].
      unfold notBefore, laterFirst in *. intros; lia.
Qed.

Lemma sort_sorted (l : list A) : StronglySorted (notBefore key) (sort (laterFirst key) l).
Proof.
  induction l as [|x l IH]; simpl; [constructor|].
  now apply sortInsert_sorted.
Qed.

Lemma sortInsert_stable (t : Z) (x : A) (l : list A) :
  filter (keyIs key t) (sortInsert (laterFirst key) x l) = filter (keyIs key t) (x :: l).
Proof.
  induction l as [|y l IH]; [reflexivity|].
  cbn [sortInsert]. destruct (0 <? laterFirst key x y) eqn:E; [|reflexivity].
  apply Z.ltb_lt in E. unfold laterFirst in E.
  cbn [filter] in *. rewrite IH. unfold keyIs.
  destruct (key y =? t) eqn:Ey; destruct (key x =? t) eqn:Ex; try reflexivity.
  apply Z.eqb_eq in Ey, Ex. lia.
Qed.

Lemma sort_stable (t : Z) (l : list A) :
  filter (keyIs key t) (sort (laterFirst key) l) = filter (keyIs key t) l.
Proof.
  induction l as [|x l IH]; [reflexivity|].
  cbn [sort fold_right]. rewrite sortInsert_stable.
  cbn [filter]. fold (sort (laterFirst key) l). now rewrite IH.
Qed.

End SortByKeyDescending.

(** ** Listing: the filter *)

Lemma filterIf_filter {A : Type} (guard : bool) (keep : A -> bool) (l : list A) :
  filterIf guard keep l = filter (fun a => negb guard || keep a) l.
Proof.
  destruct guard; simpl; [reflexivity|].
  induction l as [|a l IH]; simpl; congruence.
Qed.

Lemma filter_twice {A : Type} (f g : A -> bool) (l : list A) :
  filter g (filter f l) = filter (fun a => f a && g a) l.
Proof.
  induction l as [|a l IH]; simpl; [reflexivity|].
  destruct (f a); simpl; [destruct (g a)|]; congruence.
Qed.

Lemma filteredRecords_filter (filters : Filters) (m : Store) :
  filteredRecords filters m = filter (matchesFilters filters) (values m).
Proof.
  unfold filteredRecords. rewrite !filterIf_filter, !filter_twice.
  apply filter_ext. intros r. unfold matchesFilters, matchesOther.
  now rewrite !andb_assoc.
Qed.

Lemma hoursAtLeast_true (minHours : float) (r : AttendanceRecord) :
  hoursAtLeast minHours r = true <->
  exists t, totalHours r = Some t /\ (minHours <=? parseFloat t)%float = true.
Proof.
  unfold hoursAtLeast. destruct (totalHours r) as [t|]; simpl.
  - split; [eauto|]. intros (t' & E & H). congruence.
  - split; [discriminate|]. intros (t' & E & _). discriminate.
Qed.

Lemma SFcompare_swap (x y : spec_float) :
  SFcompare y x = option_map CompOpp (SFcompare x y).
Proof.
  destruct x as [sx|sx| |sx mx ex], y as [sy|sy| |sy my ey]; simpl;
    try reflexivity;
    try (destruct sx; reflexivity); try (destruct sy; reflexivity);
    try (destruct sx, sy; reflexivity).
  destruct sx, sy; simpl; try reflexivity;
    rewrite (Z.compare_antisym ex ey);
    destruct (ex ?= ey); simpl; try reflexivity;
    change (PosDef.Pos.compare_cont Eq my mx)
      with (Pos.compare_cont (CompOpp Eq) my mx);
    rewrite <- (Pos.compare_cont_antisym mx my Eq);
    change (PosDef.Pos.compare_cont Eq mx my) with (Pos.compare_cont Eq mx my);
    destruct (Pos.compare_cont Eq mx my); reflexivity.
Qed.

Lemma float_ltb_not_leb (x y : float) :
  (x <? y)%float = true -> (y <=? x)%float = false.
Proof.
  rewrite ltb_spec, leb_spec. unfold SFltb, SFleb.
  rewrite (SFcompare_swap (Prim2SF x) (Prim2SF y)).
  destruct (SFcompare (Prim2SF x) (Prim2SF y)) as [[| |]|]; simpl;
    congruence.
Qed.

(** C7. The listing is the filtered sessions rearranged: it is ordered by
    clock-in time, latest first, and sessions with the same clock-in time
    keep the order in which the store received them. Sessions clocked in at
    09:00, 10:00 and 08:00 of one day come back as 10:00, 09:00, 08:00. *)
Theorem listing_latest_first (filters : Filters) (m : Store) :
  let result := getAttendanceRecordsByFilters filters m in
  Permutation result (filter (matchesFilters filters) (values m))
  /\ StronglySorted (fun a b => clockInTime b <= clockInTime a) result
  /\ (forall t : Date,
         filter (fun r => clockInTime r =? t) result
         = filter (fun r => clockInTime r =? t)
             (filter (matchesFilters filters) (values m)))
  /\ (let at9 := newSession "6f1c" "Ada" "Other" "1970-01-01" (instant 0 9 0 0) in
      let at10 := newSession "9e2d" "Bo" "Other" "1970-01-01" (instant 0 10 0 0) in
      let at8 := newSession "0a1b" "Cy" "Other" "1970-01-01" (instant 0 8 0 0) in
      getAttendanceRecordsByFilters (mkFilters None None None None)
        [("6f1c", at9); ("9e2d", at10); ("0a1b", at8)]
      = [at10; at9; at8]).
Proof.
  intros result. unfold result, getAttendanceRecordsByFilters.
  rewrite filteredRecords_filter.
  split; [|split; [|split]].
  - exact (sort_Permutation clockInTime _).
  - exact (sort_sorted clockInTime _).
  - intros t. exact (sort_stable clockInTime t _).
  - reflexivity.
Qed.

(** C6, as the code has it. A [minHours] that is zero or not a number is
    treated as not supplied. For every other [minHours] the listing holds
    exactly the stored sessions that pass the other fields of the filter and
    whose total hours are present and at least [minHours]; a session without
    total hours, or with fewer, is not listed. *)
Theorem listing_minHours (filters : Filters) (m : Store) (minHours : float) :
  f_minHours filters = Some minHours ->
  truthyNumber minHours = true ->
  getAttendanceRecordsByFilters filters m
  = sort byClockInDesc
      (filter (fun r => matchesOther filters r && hoursAtLeast minHours r)
         (values m))
  /\ (forall r : AttendanceRecord,
         In r (getAttendanceRecordsByFilters filters m) <->
         In r (values m) /\ matchesOther filters r = true
         /\ exists t, totalHours r = Some t
                      /\ (minHours <=? parseFloat t)%float = true)
  /\ (forall r : AttendanceRecord,
         totalHours r = None ->
         ~ In r (getAttendanceRecordsByFilters filters m))
  /\ (forall (r : AttendanceRecord) (t : HoursText),
         totalHours r = Some t ->
         (parseFloat t <? minHours)%float = true ->
         ~ In r (getAttendanceRecordsByFilters filters m)).
Proof.
  intros Hsome Htruthy.
  assert (Hmatch : forall r, matchesFilters filters r
                             = matchesOther filters r && hoursAtLeast minHours r).
  { intros r. unfold matchesFilters. rewrite Hsome. simpl. now rewrite Htruthy. }
  assert (Heq : getAttendanceRecordsByFilters filters m
                = sort byClockInDesc
                    (filter (fun r => matchesOther filters r && hoursAtLeast minHours r)
                       (values m))).
  { unfold getAttendanceRecordsByFilters. rewrite filteredRecords_filter.
    f_equal. apply filter_ext. exact Hmatch. }
  assert (Hin : forall r : AttendanceRecord,
             In r (getAttendanceRecordsByFilters filters m) <->
             In r (values m) /\ matchesOther filters r = true
             /\ exists t, totalHours r = Some t
                          /\ (minHours <=? parseFloat t)%float = true).
  { intros r. rewrite Heq.
    split.
    - intros H.
      apply (Permutation_in _ (sort_Permutation clockInTime _)) in H.
      apply filter_In in H. destruct H as [H1 H2].
      apply andb_true_iff in H2. destruct H2 as [H2 H3].
      apply hoursAtLeast_true in H3. auto.
    - intros (H1 & H2 & H3).
      apply (Permutation_in _ (Permutation_sym (sort_Permutation clockInTime _))).
      apply filter_In. split; [assumption|].
      apply andb_true_iff. split; [assumption|].
      now apply hoursAtLeast_true. }
  split; [exact Heq|]. split; [exact Hin|]. split.
  - intros r Hnone H. apply Hin in H. destruct H as (_ & _ & t & Ht & _).
    congruence.
  - intros r t Ht Hlt H. apply Hin in H. destruct H as (_ & _ & t' & Ht' & Hle).
    assert (t' = t) by congruence. subst t'.
    apply float_ltb_not_leb in Hlt. congruence.
Qed.

(** An open session, one of 5 hours and one of 8, listed from 6 hours up. *)
Lemma listing_minHours_witness :
  let open := newSession "6f1c" "Ada" "Other" "1970-01-01" 0 in
  let short := withHours (newSession "9e2d" "Bo" "Other" "1970-01-01" 1)
                 "completed" 5 in
  let long := withHours (newSession "0a1b" "Cy" "Other" "1970-01-01" 2)
                "completed" 8 in
  let m := [("6f1c", open); ("9e2d", short); ("0a1b", long)] in
  let filters := mkFilters None None None (Some 6%float) in
  getAttendanceRecordsByFilters filters m = [long]
  /\ ~ In open (getAttendanceRecordsByFilters filters m)
  /\ ~ In short (getAttendanceRecordsByFilters filters m).
Proof.
  intros open short long m filters.
  destruct (listing_minHours filters m 6%float eq_refl eq_refl)
    as (Heq & _ & Hnone & Hless).
  split; [rewrite Heq; reflexivity|]. split.
  - apply Hnone. reflexivity.
  - apply (Hless short (hoursText 5)); reflexivity.
Defined.

(** C6 does not hold for [minHours = 0]: the filter is skipped, and a
    session without total hours is listed. *)
Lemma minHours_zero_is_skipped :
  let open := newSession "6f1c" "Ada" "Other" "1970-01-01" 0 in
  totalHours open = None
  /\ getAttendanceRecordsByFilters (mkFilters None None None (Some 0%float))
       [("6f1c", open)]
     = [open]
  /\ In open
       (getAttendanceRecordsByFilters (mkFilters None None None (Some 0%float))
          [("6f1c", open)]).
Proof.
  intros open. split; [reflexivity|]. split; [reflexivity|].
  left. reflexivity.
Qed.

(** ** Statistics *)





(** ** Total hours *)

Lemma calculateHours_rounds (clockIn clockOut : Date) :
  calculateHours clockIn clockOut
  = withHourSuffix (roundTo2 (hoursBetween clockIn clockOut)).
Proof. reflexivity. Qed.

Lemma calculateHours_shift (clockIn clockOut : Date) :
  calculateHours clockIn clockOut = calculateHours 0 (clockOut - clockIn).
Proof.
  unfold calculateHours, getTime. now rewrite Z.sub_0_r.
Qed.

(** *** Durations of whole seconds, checked one by one *)

Lemma allFrom_spec (check : Z -> bool) (n : nat) :
  forall from : Z,
    allFrom check from n = true ->
    forall z : Z, from <= z < from + Z.of_nat n -> check z = true.
Proof.
  induction n as [|n IH]; intros from H z Hz; [lia|].
  cbn [allFrom] in H. destruct (check from) eqn:E; [|discriminate].
  destruct (Z.eq_dec z from) as [->|Hne]; [assumption|].
  apply (IH (from + 1) H). lia.
Qed.

Lemma nearestHundredth_sound (d : Z) :
  nearestHundredth d = true ->
  exists n : Z,
    Z.abs (36000 * n - d) <= 18000
    /\ parseFloat (calculateHours 0 d) = (numberOfZ n / 100)%float.
Proof.
  unfold nearestHundredth.
  pose proof (Z.mul_div_le d 36000 ltac:(lia)) as Hlo.
  pose proof (Z.mul_succ_div_gt d 36000 ltac:(lia)) as Hhi.
  destruct (PrimFloat.Leibniz.eqb _ (numberOfZ (d / 36000) / 100)) eqn:E1.
  - apply Leibniz.eqb_spec in E1. intros H. apply Z.leb_le in H.
    exists (d / 36000). split; [lia|exact E1].
  - destruct (PrimFloat.Leibniz.eqb _ (numberOfZ (d / 36000 + 1) / 100)) eqn:E2;
      [|discriminate].
    apply Leibniz.eqb_spec in E2. intros H. apply Z.leb_le in H.
    exists (d / 36000 + 1). split; [lia|exact E2].
Qed.

Lemma whole_seconds_of_a_day_checked :
  allFrom (fun s => nearestHundredth (1000 * s)) 0 (Z.to_nat 86401) = true.
Proof. vm_compute. reflexivity. Qed.

Lemma whole_seconds_of_a_day (s : Z) :
  0 <= s <= 86400 ->
  exists n : Z,
    Z.abs (36000 * n - 1000 * s) <= 18000
    /\ parseFloat (calculateHours 0 (1000 * s)) = (numberOfZ n / 100)%float.
Proof.
  intros Hs. apply nearestHundredth_sound.
  apply (allFrom_spec (fun s => nearestHundredth (1000 * s)) (Z.to_nat 86401) 0
           whole_seconds_of_a_day_checked).
  rewrite Z2Nat.id; lia.
Qed.

(** C5. A clock-out of an open session stored under its id succeeds: the
    session it stores and returns has status [completed], the clock-out
    instant as its clock-out time and, as total hours, the text of a Number
    followed by h, the Number being the duration from clock-in to clock-out
    in hours, rounded to two decimal places; reading the text back gives
    that Number. Two hours and thirty minutes after any clock-in instant the
    Number is 2.5; and for every duration of a whole number of seconds up to
    a day the Number is a whole count of hundredths, within half a hundredth
    of an hour of the duration. *)
Theorem clockOut_totalHours (recordId : string) (storage : Store)
    (r : AttendanceRecord) (now : Date) :
  recordId <> "" ->
  get storage recordId = Some r -> clockOutTime r = None -> id r = recordId ->
  (exists (r' : AttendanceRecord) (storage' : Store),
      clockOut now (clockOutBody recordId) storage = (Created r', storage')
      /\ get storage' recordId = Some r'
      /\ status r' = "completed"
      /\ clockOutTime r' = Some now
      /\ clockInTime r' = clockInTime r
      /\ totalHours r'
         = Some (withHourSuffix (roundTo2 (hoursBetween (clockInTime r) now)))
      /\ option_map parseFloat (totalHours r')
         = Some (printed (roundTo2 (hoursBetween (clockInTime r) now))))
  /\ (forall T : Date,
         calculateHours T (T + instant 0 2 30 0) = hoursText 2.5
         /\ parseFloat (calculateHours T (T + instant 0 2 30 0)) = 2.5%float)
  /\ (forall (T : Date) (s : Z),
         0 <= s <= 86400 ->
         exists n : Z,
           Z.abs (36000 * n - 1000 * s) <= 18000
           /\ parseFloat (calculateHours T (T + 1000 * s))
              = (numberOfZ n / 100)%float).
Proof.
  intros Hne Hg Hc Hid. split; [|split].
  - exists (closedSession r now), (set storage (id r) (closedSession r now)).
    split.
    { apply clockOut_closes with (data := mkClockOutData recordId); auto.
      now apply clockOutSchema_accepts. }
    split; [rewrite Hid; apply get_set_same|].
    repeat split.
  - intros T. rewrite calculateHours_shift.
    replace (T + instant 0 2 30 0 - T) with 9000000 by (unfold instant; simpl; lia).
    split; vm_compute; reflexivity.
  - intros T s Hs. rewrite calculateHours_shift.
    replace (T + 1000 * s - T) with (1000 * s) by lia.
    now apply whole_seconds_of_a_day.
Qed.

(** A session opened at 09:00 and closed at 11:30. *)
Lemma clockOut_totalHours_witness :
  let open := newSession "6f1c" "Ada" "Other" "1970-01-01" (instant 0 9 0 0) in
  let now := instant 0 11 30 0 in
  exists (r' : AttendanceRecord) (storage' : Store),
    clockOut now (clockOutBody "6f1c") [("6f1c", open)] = (Created r', storage')
    /\ get storage' "6f1c" = Some r'
    /\ status r' = "completed"
    /\ clockOutTime r' = Some now
    /\ clockInTime r' = clockInTime open
    /\ totalHours r'
       = Some (withHourSuffix (roundTo2 (hoursBetween (clockInTime open) now)))
    /\ option_map parseFloat (totalHours r')
       = Some (printed (roundTo2 (hoursBetween (clockInTime open) now))).
Proof.
  intros open now.
  apply (proj1 (clockOut_totalHours "6f1c" [("6f1c", open)] open now
                  ltac:(discriminate) eq_refl eq_refl eq_refl)).
Defined.

(** A duration of exactly 1.005 hours lies halfway between two hundredths;
    the binary product 1.005 * 100 falls just below 100.5, and the total is
    1, not 1.01. *)
Lemma calculateHours_halfway_down :
  calculateHours 0 3618000 = hoursText 1
  /\ Z.abs (36000 * 100 - 3618000) = 18000.
Proof. split; vm_compute; reflexivity. Qed.

(** The three failures of a clock-out are different answers. *)
Lemma clockOut_failures_distinct :
  NotFoundError <> AlreadyClosedError
  /\ ~ ValidationError NotFoundError
  /\ ~ ValidationError AlreadyClosedError.
Proof.
  split; [discriminate|].
  split; intros (i & Hin & H); simpl in Hin;
    repeat (destruct Hin as [<-|Hin]; [discriminate|]); contradiction.
Qed.

(** ** Statistics: the four figures *)





(** *** Averages of a day with one session, checked one by one *)






(** * Further properties of the handlers and the stores *)

(** ** Clock-in *)

Lemma find_none_iff {A : Type} (f : A -> bool) (l : list A) :
  find f l = None <-> forall x, In x l -> f x = false.
Proof.
  split; [apply find_none|].
  induction l as [|a l IH]; simpl; intros H; [reflexivity|].
  rewrite (H a (or_introl eq_refl)). apply IH. intros x Hx. apply H. now right.
Qed.

Lemma values_app (m m' : Store) :
  values (m ++ m')%list = (values m ++ values m')%list.
Proof. apply map_app. Qed.

Lemma getActiveAttendanceRecord_find (name day : string) (m : Store) :
  getActiveAttendanceRecord name day m
  = find (isActiveFor name day) (values m).
Proof. reflexivity. Qed.

(** X1. A well-formed clock-in under an id the store does not hold yet
    succeeds exactly when no stored session of that employee (same
    characters, case included) and day has status [active]. It then adds one
    session after the stored ones and changes none of them; the session
    carries the name and department as sent, the day of the first clock
    reading and the second clock reading as clock-in time. *)
Theorem clockIn_succeeds_iff (tza : Z -> Z) (now now' : Date)
    (uuid name dept : string) (m : Store) :
  name <> "" -> In dept departments -> ~ In uuid (keys m) ->
  let today := toISODate now in
  let r := newSession uuid name dept today now' in
  ((forall x, In x (values m) -> isActiveFor name today x = false) <->
   clockIn tza now now' uuid (clockInBody name dept) m
   = (Created r, (m ++ [(uuid, r)])%list))
  /\ ((exists x, In x (values m) /\ isActiveFor name today x = true) <->
      exists existing : string,
        clockIn tza now now' uuid (clockInBody name dept) m
        = (DuplicateSessionError existing, m)).
Proof.
  intros Hn Hd Hf today r.
  pose proof (clockInSchema_accepts name dept Hn Hd) as Hp.
  destruct (getActiveAttendanceRecord name today m) as [x|] eqn:Ha.
  - pose proof (clockIn_duplicate tza now now' uuid _ m _ x Hp Ha) as Hdup.
    rewrite getActiveAttendanceRecord_find in Ha.
    destruct (find_some _ _ Ha) as [Hin Hact].
    split; split.
    + intros H. rewrite (H x Hin) in Hact. discriminate.
    + intros H. rewrite Hdup in H. discriminate.
    + intros _. now exists (id x).
    + intros _. now exists x.
  - pose proof (clockIn_created tza now now' uuid _ m _ Hp Ha) as Hc.
    simpl in Hc. rewrite set_fresh in Hc by assumption.
    rewrite getActiveAttendanceRecord_find, find_none_iff in Ha.
    split; split.
    + intros _. exact Hc.
    + intros _. exact Ha.
    + intros (x & Hin & Hact). rewrite (Ha x Hin) in Hact. discriminate.
    + intros (e & H). rewrite Hc in H. discriminate.
Qed.

(** A second employee whose name differs in case only. *)
Lemma clockIn_succeeds_iff_witness :
  let first := newSession "6f1c" "Ada" "Other" "1970-01-01" 0 in
  let second := newSession "9e2d" "ada" "Sales Team" "1970-01-01" 7 in
  clockIn utc 5 7 "9e2d" (clockInBody "ada" "Sales Team") [("6f1c", first)]
  = (Created second, [("6f1c", first); ("9e2d", second)]).
Proof.
  intros first second.
  apply (proj1 (clockIn_succeeds_iff utc 5 7 "9e2d" "ada" "Sales Team"
                  [("6f1c", first)]
                  ltac:(discriminate)
                  ltac:(simpl; tauto)
                  ltac:(simpl; intros [H|[]]; discriminate))).
  intros x [<-|[]]. reflexivity.
Defined.

(** X2. A rejected request is answered with status 400 and the message of
    the first issue only, the issues being raised in the order of the
    schema's keys: an empty name gives "Employee name is required" whatever
    the department is, and an empty record id "Record ID is required". *)
Theorem validation_reports_first_issue :
  (forall (tza : Z -> Z) (now now' : Date) (uuid : string)
      (props : list (string * JsonValue)) (m : Store),
      getProp props "employeeName" = JString "" ->
      clockIn tza now now' uuid (BodyObject props) m
      = (mkResponse 400 (messageJson (Text "Employee name is required") None), m))
  /\ (forall (now : Date) (props : list (string * JsonValue)) (m : Store),
         getProp props "recordId" = JString "" ->
         clockOut now (BodyObject props) m
         = (mkResponse 400 (messageJson (Text "Record ID is required") None), m))
  /\ (forall (tza : Z -> Z) (now now' : Date) (uuid name : string)
         (props : list (string * JsonValue)) (m : Store),
         getProp props "employeeName" = JString name -> name <> "" ->
         noDepartment (getProp props "department") ->
         exists issue,
           (issue = invalid_type "department"
            \/ issue = invalid_enum_value "department")
           /\ clockIn tza now now' uuid (BodyObject props) m
              = (mkResponse 400 (messageJson (LibraryText issue) None), m)).
Proof.
  split; [|split].
  - intros tza now now' uuid props m Hname.
    unfold clockIn, clockInSchema. rewrite Hname. simpl.
    destruct (zEnum departments "department" (getProp props "department"));
      reflexivity.
  - intros now props m Hid. unfold clockOut, clockOutSchema. rewrite Hid.
    reflexivity.
  - intros tza now now' uuid name props m Hname Hne Hdept.
    unfold clockIn, clockInSchema.
    rewrite Hname, (zStringMin1_accepts _ _ name Hne).
    destruct (zEnum_rejects "department" _ Hdept) as [Hi|Hi]; rewrite Hi;
      eexists; (split; [|reflexivity]); auto.
Qed.

(** An empty name with an unknown department, an empty record id, and a
    good name with an unknown department. *)
Lemma validation_reports_first_issue_witness :
  clockIn utc 0 0 "6f1c" (clockInBody "" "Kitchen") []
  = (mkResponse 400 (messageJson (Text "Employee name is required") None), [])
  /\ clockOut 0 (clockOutBody "") []
     = (mkResponse 400 (messageJson (Text "Record ID is required") None), [])
  /\ exists issue,
       (issue = invalid_type "department"
        \/ issue = invalid_enum_value "department")
       /\ clockIn utc 0 0 "6f1c" (clockInBody "Ada" "Kitchen") []
          = (mkResponse 400 (messageJson (LibraryText issue) None), []).
Proof.
  destruct validation_reports_first_issue as (Hname & Hid & Hdept).
  split; [|split].
  - apply Hname. reflexivity.
  - apply Hid. reflexivity.
  - apply (Hdept utc 0 0 "6f1c" "Ada"); [reflexivity|discriminate|].
    simpl. intros H. repeat (destruct H as [H|H]; [discriminate|]). exact H.
Defined.

Lemma clockIn_fresh_created (tza : Z -> Z) (now now' : Date)
    (uuid name dept : string) (m : Store) :
  name <> "" -> In dept departments -> ~ In uuid (keys m) ->
  find (isActiveFor name (toISODate now)) (values m) = None ->
  clockIn tza now now' uuid (clockInBody name dept) m
  = (Created (newSession uuid name dept (toISODate now) now'),
     (m ++ [(uuid, newSession uuid name dept (toISODate now) now')])%list).
Proof.
  intros Hn Hd Hf Ha.
  pose proof (clockIn_created tza now now' uuid _ m _
                (clockInSchema_accepts name dept Hn Hd) Ha) as Hc.
  simpl in Hc. now rewrite set_fresh in Hc.
Qed.

(** ** The stored map *)

Lemma get_Some_key (m : Store) (k : string) (r : AttendanceRecord) :
  get m k = Some r -> In k (keys m).
Proof.
  intros H. destruct (in_dec string_dec k (keys m)) as [Hin|Hout]; [assumption|].
  apply get_None_fresh in Hout. congruence.
Qed.

Lemma set_same (m : Store) (k : string) (r : AttendanceRecord) :
  get m k = Some r -> set m k r = m.
Proof.
  induction m as [|[k0 v0] m IH]; simpl; [discriminate|].
  destruct (String.eqb k0 k) eqn:E.
  - intros H. injection H as ->. reflexivity.
  - intros H. now rewrite IH.
Qed.

Lemma set_set (m : Store) (k : string) (v v' : AttendanceRecord) :
  set (set m k v) k v' = set m k v'.
Proof.
  induction m as [|[k0 v0] m IH]; simpl.
  - now rewrite String.eqb_refl.
  - destruct (String.eqb k0 k) eqn:E; simpl; rewrite E; [reflexivity|].
    now rewrite IH.
Qed.

Lemma spread_noUpdates (r : AttendanceRecord) : spread r noUpdates = r.
Proof. destruct r. reflexivity. Qed.

(** X3. [updateAttendanceRecord] under a key the map does not hold returns
    nothing and leaves the map as it was. Under a key it holds, it returns
    the stored record overlaid with the fields given, stores it in the same
    place, and neither adds nor removes a key nor touches the record of
    another key; with no field given the record and the map stay as they
    were. *)
Theorem updateAttendanceRecord_in_place (key : string)
    (updates : PartialAttendanceRecord) (m : Store) :
  (get m key = None -> updateAttendanceRecord key updates m = (None, m))
  /\ (forall r : AttendanceRecord,
         get m key = Some r ->
         let m' := snd (updateAttendanceRecord key updates m) in
         fst (updateAttendanceRecord key updates m) = Some (spread r updates)
         /\ get m' key = Some (spread r updates)
         /\ keys m' = keys m
         /\ (forall other, other <> key -> get m' other = get m other)
         /\ updateAttendanceRecord key noUpdates m = (Some r, m)).
Proof.
  unfold updateAttendanceRecord. split.
  - intros H. now rewrite H.
  - intros r H. rewrite H. simpl. repeat split.
    + apply get_set_same.
    + apply keys_set_present. eapply get_Some_key; eauto.
    + intros other Hne. apply get_set_other. congruence.
    + now rewrite spread_noUpdates, set_same.
Qed.

(** An update of the status of the second of two sessions, and an update
    under an unknown key. *)
Lemma updateAttendanceRecord_in_place_witness :
  let a := newSession "6f1c" "Ada" "Other" "1970-01-01" 0 in
  let b := newSession "9e2d" "Bo" "Other" "1970-01-01" 1 in
  let late := mkPartial None None None None None None (Some "late") None in
  let m := [("6f1c", a); ("9e2d", b)] in
  updateAttendanceRecord "0000" late m = (None, m)
  /\ (let m' := snd (updateAttendanceRecord "9e2d" late m) in
      fst (updateAttendanceRecord "9e2d" late m) = Some (spread b late)
      /\ get m' "9e2d" = Some (spread b late)
      /\ keys m' = keys m
      /\ (forall other, other <> "9e2d" -> get m' other = get m other)
      /\ updateAttendanceRecord "9e2d" noUpdates m = (Some b, m)).
Proof.
  intros a b late m. split.
  - apply (proj1 (updateAttendanceRecord_in_place "0000" late m)). reflexivity.
  - apply (proj2 (updateAttendanceRecord_in_place "9e2d" late m) b). reflexivity.
Defined.

(** ** The status query *)

(** X4. The status query answers active exactly when the store holds a
    session of that employee and UTC day whose status is [active]; it then
    returns such a session, and otherwise none. A session whose status is
    [late] or [completed] does not make the employee active. *)
Theorem getStatus_active_iff (now : Date) (name : string) (m : Store) :
  (fst (getStatus now name m) = true <->
   exists r, In r (values m)
             /\ employeeName r = name /\ date r = toISODate now
             /\ status r = "active")
  /\ (fst (getStatus now name m) = false <-> snd (getStatus now name m) = None)
  /\ (forall r, snd (getStatus now name m) = Some r ->
                In r (values m)
                /\ employeeName r = name /\ date r = toISODate now
                /\ status r = "active").
Proof.
  unfold getStatus. simpl. rewrite getActiveAttendanceRecord_find.
  destruct (find (isActiveFor name (toISODate now)) (values m)) as [x|] eqn:E.
  - destruct (find_some _ _ E) as [Hin Hact]. apply isActiveFor_true in Hact.
    split; [|split].
    + split; [intros _; now exists x|reflexivity].
    + split; discriminate.
    + intros r Hr. injection Hr as <-. tauto.
  - rewrite find_none_iff in E. split; [|split].
    + split; [discriminate|]. intros (r & Hin & Hr).
      apply isActiveFor_true in Hr. rewrite (E r Hin) in Hr. discriminate.
    + split; reflexivity.
    + discriminate.
Qed.

(** A store whose only session of Ada is [late]. *)
Lemma getStatus_active_iff_witness :
  let l := {| id := "0a1b"; employeeName := "Ada"; department := "Other";
              clockInTime := instant 0 10 0 0; clockOutTime := None;
              totalHours := None; status := "late"; date := "1970-01-01" |} in
  fst (getStatus (instant 0 11 0 0) "Ada" [("0a1b", l)]) = false
  /\ snd (getStatus (instant 0 11 0 0) "Ada" [("0a1b", l)]) = None.
Proof.
  intros l.
  destruct (getStatus_active_iff (instant 0 11 0 0) "Ada" [("0a1b", l)])
    as (_ & Hnone & _).
  split; [reflexivity|]. apply Hnone. reflexivity.
Defined.

(** ** A day with several sessions *)

(** X5. After a clock-in and the clock-out of the session it created, the
    status query of that day answers not active (between the two it answers
    active, with that session), and the same employee can clock in again on
    the same day: the second clock-in succeeds and adds a second session. *)
Theorem clock_in_again_after_clock_out (tza : Z -> Z) (now now' out : Date)
    (uuid name dept : string) (m : Store) :
  name <> "" -> In dept departments -> uuid <> "" -> ~ In uuid (keys m) ->
  (forall x, In x (values m) -> isActiveFor name (toISODate now) x = false) ->
  let today := toISODate now in
  let r := newSession uuid name dept today now' in
  let m1 := (m ++ [(uuid, r)])%list in
  let m2 := (m ++ [(uuid, closedSession r out)])%list in
  clockIn tza now now' uuid (clockInBody name dept) m = (Created r, m1)
  /\ clockOut out (clockOutBody uuid) m1 = (Created (closedSession r out), m2)
  /\ forall later : Date,
       toISODate later = today ->
       getStatus later name m1 = (true, Some r)
       /\ getStatus later name m2 = (false, None)
       /\ forall (later' : Date) (uuid' dept' : string),
            In dept' departments -> ~ In uuid' (keys m2) ->
            clockIn tza later later' uuid' (clockInBody name dept') m2
            = (Created (newSession uuid' name dept' today later'),
               (m2 ++ [(uuid', newSession uuid' name dept' today later')])%list).
Proof.
  intros Hn Hd Hu Hf Hnone today r m1 m2.
  apply find_none_iff in Hnone.
  assert (H1 : m1 = set m uuid r) by (symmetry; now apply set_fresh).
  assert (H2 : m2 = set m1 uuid (closedSession r out)).
  { rewrite H1, set_set. symmetry. now apply set_fresh. }
  assert (Ha2 : find (isActiveFor name today) (values m2) = None).
  { unfold m2. rewrite values_app, find_app_none by assumption.
    unfold values, isActiveFor. simpl. now rewrite andb_false_r. }
  split; [now apply clockIn_fresh_created|]. split.
  - rewrite H2.
    apply (clockOut_closes out _ m1 (mkClockOutData uuid) r).
    + now apply clockOutSchema_accepts.
    + rewrite H1. apply get_set_same.
    + reflexivity.
    + reflexivity.
  - intros later Hday. split; [|split].
    + unfold getStatus. rewrite getActiveAttendanceRecord_find, Hday.
      unfold m1. rewrite values_app, find_app_none by assumption.
      unfold values, isActiveFor. simpl. now rewrite !String.eqb_refl.
    + unfold getStatus. rewrite getActiveAttendanceRecord_find, Hday.
      fold today. now rewrite Ha2.
    + intros later' uuid' dept' Hd' Hf'. rewrite <- Hday.
      apply clockIn_fresh_created; auto. now rewrite Hday.
Qed.

(** Ada clocks in at 09:00, out at 12:00, and in again at 13:00. *)
Lemma clock_in_again_after_clock_out_witness :
  let r := newSession "6f1c" "Ada" "Other" "1970-01-01" (instant 0 9 0 0) in
  let closed := closedSession r (instant 0 12 0 0) in
  let again := newSession "9e2d" "Ada" "Other" "1970-01-01" (instant 0 13 0 0) in
  clockOut (instant 0 12 0 0) (clockOutBody "6f1c") [("6f1c", r)]
  = (Created closed, [("6f1c", closed)])
  /\ getStatus (instant 0 13 0 0) "Ada" [("6f1c", closed)] = (false, None)
  /\ clockIn utc (instant 0 13 0 0) (instant 0 13 0 0) "9e2d"
       (clockInBody "Ada" "Other") [("6f1c", closed)]
     = (Created again, [("6f1c", closed); ("9e2d", again)]).
Proof.
  intros r closed again.
  destruct (clock_in_again_after_clock_out utc (instant 0 9 0 0) (instant 0 9 0 0)
              (instant 0 12 0 0) "6f1c" "Ada" "Other" []
              ltac:(discriminate) ltac:(simpl; tauto) ltac:(discriminate)
              ltac:(simpl; tauto) ltac:(intros x [])) as (_ & Hout & Hlater).
  split; [exact Hout|].
  destruct (Hlater (instant 0 13 0 0) eq_refl) as (_ & Hs & Hagain).
  split; [exact Hs|].
  apply (Hagain (instant 0 13 0 0) "9e2d" "Other").
  - simpl. tauto.
  - simpl. intros [H|[]]. discriminate.
Defined.

(** ** What every run of the server keeps *)

Lemma Forall_values_set (P : AttendanceRecord -> Prop) (m : Store) (k : string)
    (v : AttendanceRecord) :
  Forall P (values m) -> P v -> Forall P (values (set m k v)).
Proof.
  intros Hm Hv. induction m as [|[k0 v0] m IH]; simpl in *.
  - constructor; [assumption|constructor].
  - inversion Hm as [|? ? H0 Hm']; subst.
    destruct (String.eqb k0 k); simpl; constructor; auto.
Qed.

Lemma lifecycle_newSession (uuid name dept day : string) (t : Date) :
  lifecycle (newSession uuid name dept day t).
Proof. left. repeat split. Qed.

Lemma lifecycle_closedSession (r : AttendanceRecord) (now : Date) :
  lifecycle (closedSession r now).
Proof. right. split; [reflexivity|]. exists now. split; reflexivity. Qed.

Lemma step_lifecycle (tza : Z -> Z) (m m' : Store) :
  wellKeyed m -> step tza m m' ->
  Forall lifecycle (values m) -> Forall lifecycle (values m').
Proof.
  intros Hwk Hstep Hl.
  destruct (step_cases_wellKeyed tza m m' Hwk Hstep)
    as [->|[(uuid & name & dept & day & t & _ & _ & ->)|(r & now & _ & _ & ->)]].
  - assumption.
  - apply Forall_values_set; [assumption|apply lifecycle_newSession].
  - apply Forall_values_set; [assumption|apply lifecycle_closedSession].
Qed.

Lemma lifecycle_not_late (l : list AttendanceRecord) :
  Forall lifecycle l ->
  filter (fun record => String.eqb (status record) "late") l = [].
Proof.
  induction 1 as [|r l Hr Hl IH]; simpl; [reflexivity|].
  destruct Hr as [(-> & _)|(-> & _)]; simpl; exact IH.
Qed.

Lemma lifecycle_active_open (l : list AttendanceRecord) :
  Forall lifecycle l ->
  filter (fun record => String.eqb (status record) "active") l
  = filter (fun r => negb (isClosedSession r)) l.
Proof.
  induction 1 as [|r l Hr Hl IH]; simpl; [reflexivity|].
  unfold isClosedSession.
  destruct Hr as [(-> & -> & _)|(-> & t & -> & _)]; simpl; now rewrite IH.
Qed.

Lemma Forall_filter_keep {A : Type} (P : A -> Prop) (f : A -> bool) (l : list A) :
  Forall P l -> Forall P (filter f l).
Proof.
  induction 1 as [|a l Ha Hl IH]; simpl; [constructor|].
  destruct (f a); [constructor|]; assumption.
Qed.

(** X6. In every store that a run of clock-ins (each under an id not yet
    in use) and clock-outs reaches from a store of open and closed
    sessions, and so from the empty store, each session is either [active]
    without clock-out time and total hours, or [completed] with a clock-out
    time and the total hours computed from it. No session ever has status
    [late]: the statistics report [lateToday = 0] at every instant, and
    [currentlyActive] is the number of today's sessions without a clock-out
    time. *)
Theorem reachable_lifecycle (tza : Z -> Z) (m m' : Store) :
  wellKeyed m -> Forall lifecycle (values m) -> reachable tza m m' ->
  Forall lifecycle (values m')
  /\ (forall r, In r (values m') ->
                status r <> "late"
                /\ (status r = "completed" <-> clockOutTime r <> None)
                /\ (totalHours r <> None <-> clockOutTime r <> None))
  /\ forall now : Date,
       lateToday (getAttendanceStatistics now m') = 0
       /\ currentlyActive (getAttendanceStatistics now m')
          = size (filter (fun r => negb (isClosedSession r))
                    (todaySessions now m')).
Proof.
  intros Hwk Hl Hr.
  assert (Hl' : Forall lifecycle (values m')).
  { induction Hr as [|m' m'' Hr IH Hstep]; [assumption|].
    apply (step_lifecycle tza m' m''); [|assumption|assumption].
    now apply (reachable_wellKeyed tza m m'). }
  split; [exact Hl'|]. split.
  - intros r Hin. rewrite Forall_forall in Hl'.
    destruct (Hl' r Hin) as [(Hs & Hc & Ht)|(Hs & t & Hc & Ht)];
      rewrite Hs, Hc, Ht; repeat split; intros; congruence.
  - intros now. unfold getAttendanceStatistics.
    cbn [lateToday currentlyActive]. fold (todaySessions now m').
    assert (Ht : Forall lifecycle (todaySessions now m'))
      by now apply Forall_filter_keep.
    split; [now rewrite lifecycle_not_late|].
    now rewrite (lifecycle_active_open _ Ht).
Qed.

(** The store after one clock-in, and then after its clock-out. *)
Lemma reachable_lifecycle_witness :
  let r := newSession "6f1c" "Ada" "Other" "1970-01-01" (instant 0 10 0 0) in
  let m' := [("6f1c", closedSession r (instant 0 12 0 0))] in
  reachable utc [] m'
  /\ Forall lifecycle (values m')
  /\ forall now : Date,
       lateToday (getAttendanceStatistics now m') = 0
       /\ currentlyActive (getAttendanceStatistics now m')
          = size (filter (fun r => negb (isClosedSession r))
                    (todaySessions now m')).
Proof.
  intros r m'.
  assert (Hr : reachable utc [] m').
  { apply (reachable_step utc [] [("6f1c", r)]).
    - apply (reachable_step utc [] []); [apply reachable_here|].
      exact (step_clockIn utc (instant 0 10 0 0) (instant 0 10 0 0) "6f1c"
               (clockInBody "Ada" "Other") [] (fun H => H)).
    - exact (step_clockOut utc (instant 0 12 0 0) (clockOutBody "6f1c")
               [("6f1c", r)]). }
  split; [exact Hr|].
  destruct (reachable_lifecycle utc [] m' (conj (NoDup_nil _) (Forall_nil _))
              (Forall_nil _) Hr) as (H1 & _ & H3).
  split; assumption.
Defined.

Lemma filter_values_set_le (f : AttendanceRecord -> bool) (m : Store) (k : string)
    (v : AttendanceRecord) :
  f v = false ->
  (List.length (filter f (values (set m k v)))
   <= List.length (filter f (values m)))%nat.
Proof.
  intros Hv. induction m as [|[k0 v0] m IH]; simpl.
  - rewrite Hv. simpl. lia.
  - destruct (String.eqb k0 k); simpl.
    + rewrite Hv. destruct (f v0); simpl; lia.
    + destruct (f v0); simpl; lia.
Qed.

Lemma find_none_filter {A : Type} (f : A -> bool) (l : list A) :
  find f l = None -> filter f l = [].
Proof.
  induction l as [|a l IH]; simpl; [reflexivity|].
  destruct (f a); [discriminate|assumption].
Qed.

Lemma step_oneOpenPerDay (tza : Z -> Z) (m m' : Store) :
  step tza m m' -> oneOpenPerDay m -> oneOpenPerDay m'.
Proof.
  intros Hstep Hone name day.
  destruct (step_cases tza m m' Hstep)
    as [->|[(uuid & name0 & dept & day0 & t & _ & Ha & ->)
          |(key & r & now & _ & _ & [(r0 & _ & ->)| ->])]].
  - apply Hone.
  - rewrite values_app, filter_app, length_app. simpl.
    destruct (isActiveFor name day (newSession uuid name0 dept day0 t)) eqn:E.
    + apply isActiveFor_true in E. simpl in E. destruct E as (-> & -> & _).
      rewrite getActiveAttendanceRecord_find in Ha.
      rewrite (find_none_filter _ _ Ha). simpl. lia.
    + specialize (Hone name day). simpl. lia.
  - etransitivity; [|apply (Hone name day)].
    apply filter_values_set_le. unfold isActiveFor. simpl.
    now rewrite andb_false_r.
  - apply Hone.
Qed.

(** X7. No run of clock-ins and clock-outs gives an employee two [active]
    sessions dated the same day: if no employee has two in a store, none
    has in any store reached from it, the empty store included. *)
Theorem reachable_oneOpenPerDay (tza : Z -> Z) (m m' : Store) :
  oneOpenPerDay m -> reachable tza m m' -> oneOpenPerDay m'.
Proof.
  intros Hone Hr. induction Hr as [|m' m'' Hr IH Hstep]; [assumption|].
  now apply (step_oneOpenPerDay tza m' m'').
Qed.

(** From the empty store, after a clock-in and a refused second one. *)
Lemma reachable_oneOpenPerDay_witness :
  let r := newSession "6f1c" "Ada" "Other" "1970-01-01" (instant 0 10 0 0) in
  oneOpenPerDay [("6f1c", r)].
Proof.
  intros r.
  apply (reachable_oneOpenPerDay utc [] [("6f1c", r)]).
  - intros name day. simpl. lia.
  - apply (reachable_step utc [] [("6f1c", r)]).
    + apply (reachable_step utc [] []); [apply reachable_here|].
      exact (step_clockIn utc (instant 0 10 0 0) (instant 0 10 0 0) "6f1c"
               (clockInBody "Ada" "Other") [] (fun H => H)).
    + exact (step_clockIn utc (instant 0 11 0 0) (instant 0 11 0 0) "9e2d"
               (clockInBody "Ada" "Other") [("6f1c", r)]
               ltac:(simpl; intros [H|[]]; discriminate)).
Defined.

Lemma sameSession_refl (r : AttendanceRecord) : sameSession r r.
Proof. repeat split. Qed.

Lemma sameSession_trans (a b c : AttendanceRecord) :
  sameSession a b -> sameSession b c -> sameSession a c.
Proof.
  unfold sameSession. intros (? & ? & ? & ? & ?) (? & ? & ? & ? & ?).
  repeat split; congruence.
Qed.

Lemma step_keeps_session (tza : Z -> Z) (m m' : Store) (k : string)
    (r : AttendanceRecord) :
  wellKeyed m -> step tza m m' -> get m k = Some r ->
  exists r', get m' k = Some r'
             /\ sameSession r r'
             /\ (clockOutTime r <> None -> r' = r).
Proof.
  intros Hwk Hstep Hg.
  destruct (step_cases_wellKeyed tza m m' Hwk Hstep)
    as [->|[(uuid & name & dept & day & t & Hf & _ & ->)|(x & now & Hx & Hxc & ->)]].
  - exists r. auto using sameSession_refl.
  - exists r. split; [|auto using sameSession_refl].
    rewrite get_set_other; [assumption|].
    intros ->. apply get_None_fresh in Hf. congruence.
  - destruct (string_dec (id x) k) as [E|E].
    + assert (x = r) by congruence. subst x.
      exists (closedSession r now). rewrite <- E.
      split; [apply get_set_same|]. split; [repeat split|].
      intros Hc. contradiction.
    + exists r. split; [|auto using sameSession_refl].
      now rewrite get_set_other.
Qed.

(** X8. A run of the server never removes a session and never changes the
    id, employee, department, clock-in time or day of one; and a session
    that has a clock-out time is never changed again in any field. *)
Theorem reachable_keeps_sessions (tza : Z -> Z) (m m' : Store) (k : string)
    (r : AttendanceRecord) :
  wellKeyed m -> reachable tza m m' -> get m k = Some r ->
  exists r', get m' k = Some r'
             /\ sameSession r r'
             /\ (clockOutTime r <> None -> r' = r).
Proof.
  intros Hwk Hr Hg. induction Hr as [|m' m'' Hr IH Hstep].
  - exists r. auto using sameSession_refl.
  - destruct IH as (r1 & Hg1 & Hs1 & Hc1).
    pose proof (reachable_wellKeyed tza m m' Hwk Hr) as Hwk'.
    destruct (step_keeps_session tza m' m'' k r1 Hwk' Hstep Hg1)
      as (r2 & Hg2 & Hs2 & Hc2).
    exists r2. split; [assumption|]. split.
    + eapply sameSession_trans; eauto.
    + intros Hc. rewrite <- (Hc1 Hc). apply Hc2. now rewrite (Hc1 Hc).
Qed.

(** An open session across its own clock-out. *)
Lemma reachable_keeps_sessions_witness :
  let r := newSession "6f1c" "Ada" "Other" "1970-01-01" (instant 0 10 0 0) in
  exists r', get [("6f1c", closedSession r (instant 0 12 0 0))] "6f1c" = Some r'
             /\ sameSession r r'
             /\ (clockOutTime r <> None -> r' = r).
Proof.
  intros r.
  apply (reachable_keeps_sessions utc [("6f1c", r)]
           [("6f1c", closedSession r (instant 0 12 0 0))] "6f1c" r).
  - split; [repeat constructor; simpl; tauto|repeat constructor].
  - apply (reachable_step utc _ [("6f1c", r)]); [apply reachable_here|].
    exact (step_clockOut utc (instant 0 12 0 0) (clockOutBody "6f1c")
             [("6f1c", r)]).
  - reflexivity.
Defined.

(** ** Listing: filtering and sorting *)

Section FilterSorted.
Context {A : Type} (key : A -> Z) (q : A -> bool).

Lemma sortInsert_front (x : A) (l : list A) :
  Forall (fun b => key b <= key x) l ->
  sortInsert (laterFirst key) x l = x :: l.
Proof.
  destruct l as [|y l]; [reflexivity|]. intros H.
  inversion H as [|? ? Hy _]; subst. simpl.
  destruct (0 <? laterFirst key x y) eqn:E; [|reflexivity].
  apply Z.ltb_lt in E. unfold laterFirst in E. lia.
Qed.

Lemma filter_sortInsert (x : A) (l : list A) :
  StronglySorted (notBefore key) l ->
  filter q (sortInsert (laterFirst key) x l)
  = if q x then sortInsert (laterFirst key) x (filter q l) else filter q l.
Proof.
  induction l as [|y l IH]; intros Hs.
  - simpl. destruct (q x); reflexivity.
  - inversion Hs as [|? ? Hl Hy]; subst.
    cbn [sortInsert]. destruct (0 <? laterFirst key x y) eqn:E.
    + cbn [filter]. rewrite (IH Hl).
      destruct (q y); destruct (q x); try reflexivity.
      cbn [sortInsert]. now rewrite E.
    + apply Z.ltb_ge in E. unfold laterFirst in E.
      cbn [filter]. destruct (q x); [|reflexivity].
      symmetry. apply sortInsert_front.
      assert (Hall : Forall (fun b => key b <= key x) (y :: l)).
      { constructor; [lia|]. eapply Forall_impl; [|exact Hy].
        unfold notBefore. intros; lia. }
      exact (Forall_filter_keep _ q _ Hall).
Qed.

Lemma filter_sort (l : list A) :
  filter q (sort (laterFirst key) l) = sort (laterFirst key) (filter q l).
Proof.
  induction l as [|x l IH]; [reflexivity|].
  cbn [sort fold_right]. fold (sort (laterFirst key) l).
  rewrite filter_sortInsert by apply sort_sorted.
  cbn [filter]. destruct (q x); [|exact IH].
  cbn [sort fold_right]. fold (sort (laterFirst key) (filter q l)).
  now rewrite IH.
Qed.

End FilterSorted.

Lemma filter_all {A : Type} (f : A -> bool) (l : list A) :
  (forall a, f a = true) -> filter f l = l.
Proof.
  intros H. induction l as [|a l IH]; simpl; [reflexivity|].
  now rewrite H, IH.
Qed.

(** X9. The full listing is every stored session, latest clock-in first.
    The listing for a filter is the full listing with the sessions that do
    not pass the filter left out, the others in the same order; and a
    filter whose fields are all absent, empty or zero leaves none out. *)
Theorem listing_is_filtered_full_listing (filters : Filters) (m : Store) :
  Permutation (getAllAttendanceRecords m) (values m)
  /\ StronglySorted (fun a b => clockInTime b <= clockInTime a)
       (getAllAttendanceRecords m)
  /\ getAttendanceRecordsByFilters filters m
     = filter (matchesFilters filters) (getAllAttendanceRecords m)
  /\ (truthyOpt truthyString (f_employeeName filters) = false ->
      truthyOpt truthyString (f_department filters) = false ->
      truthyOpt truthyString (f_date filters) = false ->
      truthyOpt truthyNumber (f_minHours filters) = false ->
      getAttendanceRecordsByFilters filters m = getAllAttendanceRecords m).
Proof.
  assert (Heq : getAttendanceRecordsByFilters filters m
                = filter (matchesFilters filters) (getAllAttendanceRecords m)).
  { unfold getAttendanceRecordsByFilters, getAllAttendanceRecords.
    rewrite filteredRecords_filter.
    symmetry. exact (filter_sort clockInTime _ (values m)). }
  split; [exact (sort_Permutation clockInTime _)|].
  split; [exact (sort_sorted clockInTime _)|].
  split; [exact Heq|].
  intros H1 H2 H3 H4. rewrite Heq. apply filter_all.
  intros r. unfold matchesFilters, matchesOther.
  now rewrite H1, H2, H3, H4.
Qed.

(** A request whose parameters are empty strings and a zero. *)
Lemma listing_is_filtered_full_listing_witness :
  let a := newSession "6f1c" "Ada" "Other" "1970-01-01" 5 in
  let b := newSession "9e2d" "Bo" "Other" "1970-01-01" 9 in
  getAttendanceRecordsByFilters (mkFilters (Some "") (Some "") (Some "") (Some 0%float))
    [("6f1c", a); ("9e2d", b)]
  = getAllAttendanceRecords [("6f1c", a); ("9e2d", b)].
Proof.
  intros a b.
  apply (proj2 (proj2 (proj2 (listing_is_filtered_full_listing
                                (mkFilters (Some "") (Some "") (Some "") (Some 0%float))
                                [("6f1c", a); ("9e2d", b)]))));
    reflexivity.
Defined.

(** ** Listing: the name field *)

Lemma prefix_append (sub s : string) :
  String.prefix sub s = true <-> exists post, s = (sub ++ post)%string.
Proof.
  revert s. induction sub as [|a sub IH]; intros s.
  - split; [intros _; now exists s|]. intros _. destruct s; reflexivity.
  - destruct s as [|b s]; simpl.
    + split; [discriminate|]. intros (post & H). discriminate.
    + destruct (ascii_dec a b) as [->|Hne].
      * rewrite IH. split; intros (post & H); exists post; congruence.
      * split; [discriminate|]. intros (post & H). congruence.
Qed.

Lemma includes_append (s sub : string) :
  includes s sub = true <->
  exists pre post, s = (pre ++ sub ++ post)%string.
Proof.
  induction s as [|c s IH].
  - cbn [includes]. rewrite orb_false_r, prefix_append. split.
    + intros (post & H). now exists "", post.
    + intros (pre & post & H). destruct pre; [now exists post|discriminate].
  - cbn [includes]. rewrite orb_true_iff, prefix_append, IH. split.
    + intros [(post & H)|(pre & post & H)].
      * now exists "", post.
      * exists (String c pre), post. simpl. congruence.
    + intros (pre & post & H). destruct pre as [|c' pre].
      * left. now exists post.
      * right. exists pre, post. simpl in H. congruence.
Qed.

Lemma toLowerCase_empty (s : string) : toLowerCase s = "" <-> s = "".
Proof. destruct s; simpl; split; congruence. Qed.

Lemma matchesFilters_name (filters : Filters) (query : string)
    (r : AttendanceRecord) :
  f_employeeName filters = Some query -> query <> "" ->
  matchesFilters filters r
  = nameContains query r
    && matchesFilters
         (mkFilters None (f_department filters) (f_date filters)
            (f_minHours filters)) r.
Proof.
  intros Hq Hne. unfold matchesFilters, matchesOther, nameContains.
  rewrite Hq. simpl.
  assert (E : truthyString query = true).
  { unfold truthyString. apply negb_true_iff. now apply String.eqb_neq. }
  rewrite E. simpl. now rewrite !andb_assoc.
Qed.

(** X10. On ASCII text: when the stored names and the query are ASCII
    strings, a non-empty [employeeName] makes the listing keep exactly the
    sessions, among those passing the other fields, whose name with A to Z
    folded to lower case contains the query, folded the same way, as a run
    of consecutive characters; so two ASCII queries that differ in the case
    of their letters only give the same listing. *)
Theorem listing_name_contains (filters : Filters) (query : string) (m : Store) :
  f_employeeName filters = Some query -> query <> "" ->
  isAscii query = true ->
  Forall (fun r => isAscii (employeeName r) = true) (values m) ->
  let others := mkFilters None (f_department filters) (f_date filters)
                  (f_minHours filters) in
  (forall r : AttendanceRecord,
      In r (getAttendanceRecordsByFilters filters m) <->
      In r (getAttendanceRecordsByFilters others m)
      /\ exists pre post : string,
           toLowerCase (employeeName r)
           = (pre ++ toLowerCase query ++ post)%string)
  /\ getAttendanceRecordsByFilters filters m
     = filter (nameContains query) (getAttendanceRecordsByFilters others m)
  /\ (forall query' : string,
         isAscii query' = true ->
         toLowerCase query' = toLowerCase query ->
         getAttendanceRecordsByFilters
           (mkFilters (Some query') (f_department filters) (f_date filters)
              (f_minHours filters)) m
         = getAttendanceRecordsByFilters filters m).
Proof.
  intros Hq Hne _ _ others.
  assert (Hlist : forall (f : Filters) (q : string),
             f_employeeName f = Some q -> q <> "" ->
             getAttendanceRecordsByFilters f m
             = filter (nameContains q)
                 (getAttendanceRecordsByFilters
                    (mkFilters None (f_department f) (f_date f) (f_minHours f)) m)).
  { intros f q Hf Hn.
    unfold getAttendanceRecordsByFilters. rewrite !filteredRecords_filter.
    rewrite (filter_sort clockInTime), filter_twice. f_equal.
    apply filter_ext. intros r. rewrite (matchesFilters_name f q r Hf Hn).
    apply andb_comm. }
  split; [|split].
  - intros r. rewrite (Hlist filters query Hq Hne). fold others.
    rewrite filter_In. unfold nameContains. now rewrite includes_append.
  - exact (Hlist filters query Hq Hne).
  - intros query' _ Hcase.
    assert (Hne' : query' <> "").
    { intros ->. simpl in Hcase. symmetry in Hcase.
      apply (proj1 (toLowerCase_empty query)) in Hcase. contradiction. }
    rewrite (Hlist (mkFilters (Some query') (f_department filters)
                      (f_date filters) (f_minHours filters))
               query' eq_refl Hne'),
      (Hlist filters query Hq Hne).
    simpl. apply filter_ext. intros r. unfold nameContains. now rewrite Hcase.
Qed.

(** The query "DA" finds Ada and Adan, not Bo; so does "da". *)
Lemma listing_name_contains_witness :
  let a := newSession "6f1c" "Ada" "Other" "1970-01-01" 5 in
  let b := newSession "9e2d" "Bo" "Other" "1970-01-01" 9 in
  let c := newSession "0a1b" "ADAN" "Other" "1970-01-01" 7 in
  let m := [("6f1c", a); ("9e2d", b); ("0a1b", c)] in
  getAttendanceRecordsByFilters (mkFilters (Some "DA") None None None) m = [c; a]
  /\ getAttendanceRecordsByFilters (mkFilters (Some "da") None None None) m
     = getAttendanceRecordsByFilters (mkFilters (Some "DA") None None None) m.
Proof.
  intros a b c m.
  assert (Hnames : Forall (fun r => isAscii (employeeName r) = true) (values m)).
  { repeat constructor. }
  destruct (listing_name_contains (mkFilters (Some "DA") None None None) "DA" m
              eq_refl ltac:(discriminate) eq_refl Hnames) as (_ & Heq & Hcase).
  split.
  - rewrite Heq. reflexivity.
  - apply (Hcase "da"); reflexivity.
Defined.

(** ** Statistics: bounds *)

Lemma length_newSet (l : list string) :
  (List.length (newSet l) <= List.length l)%nat.
Proof.
  induction l as [|x l IH]; simpl; [lia|].
  pose proof (filter_length_le (fun y => negb (String.eqb y x)) (newSet l)).
  lia.
Qed.

Lemma length_filter_disjoint {A : Type} (p q : A -> bool) (l : list A) :
  (forall a, p a = true -> q a = false) ->
  (List.length (filter p l) + List.length (filter q l) <= List.length l)%nat.
Proof.
  intros H. induction l as [|a l IH]; simpl; [lia|].
  destruct (p a) eqn:Ep; [rewrite (H a Ep)|destruct (q a)]; simpl; lia.
Qed.

(** X11. The statistics count today's sessions only: a session dated
    another day changes none of the four numbers. [totalEmployees] is at
    most the number of today's sessions and is 0 only when there is none;
    [currentlyActive] and [lateToday] together are at most that number;
    and on a day without sessions all four numbers are 0. *)
Theorem statistics_bounds (now : Date) (m : Store) :
  let stats := getAttendanceStatistics now m in
  let n := size (todaySessions now m) in
  0 <= totalEmployees stats <= n
  /\ (totalEmployees stats = 0 <-> n = 0)
  /\ 0 <= currentlyActive stats /\ 0 <= lateToday stats
  /\ currentlyActive stats + lateToday stats <= n
  /\ (n = 0 -> stats = mkStatistics 0 0 0 0)
  /\ (forall (k : string) (r : AttendanceRecord),
         date r <> toISODate now ->
         getAttendanceStatistics now (m ++ [(k, r)])%list = stats).
Proof.
  intros stats n. unfold stats, n, getAttendanceStatistics, size.
  fold (todaySessions now m). cbn [totalEmployees currentlyActive lateToday].
  set (today := todaySessions now m).
  pose proof (length_newSet (map employeeName today)) as Hset.
  rewrite length_map in Hset.
  pose proof (length_filter_disjoint
                (fun record => String.eqb (status record) "active")
                (fun record => String.eqb (status record) "late") today) as Hdis.
  split; [lia|]. split.
  - destruct today as [|r today']; simpl; split; intros; lia.
  - split; [lia|]. split; [lia|]. split.
    + assert (forall a : AttendanceRecord,
                 String.eqb (status a) "active" = true ->
                 String.eqb (status a) "late" = false) as Hd.
      { intros a Ha. apply String.eqb_eq in Ha. now rewrite Ha. }
      specialize (Hdis Hd). lia.
    + split.
      * intros Hn. destruct today as [|r today']; [reflexivity|].
        simpl in Hn. lia.
      * intros k r Hr. unfold todaySessions in today.
        rewrite values_app, filter_app. simpl.
        apply String.eqb_neq in Hr. rewrite Hr, app_nil_r. reflexivity.
Qed.

(** An empty day, and a session of the day before. *)
Lemma statistics_bounds_witness :
  let old := newSession "6f1c" "Ada" "Other" "1969-12-31" (-5) in
  getAttendanceStatistics 0 [] = mkStatistics 0 0 0 0
  /\ getAttendanceStatistics 0 ([] ++ [("6f1c", old)])%list
     = getAttendanceStatistics 0 [].
Proof.
  intros old.
  destruct (statistics_bounds 0 []) as (_ & _ & _ & _ & _ & Hzero & Hother).
  split; [now apply Hzero|].
  apply Hother. discriminate.
Defined.

(** ** The dashboard password *)

Lemma HR_PASSWORD_nonempty (env : option string) : HR_PASSWORD env <> "".
Proof.
  unfold HR_PASSWORD. destruct env as [configured|]; [|discriminate].
  unfold truthyString. destruct (String.eqb configured "") eqn:E; simpl.
  - discriminate.
  - now apply String.eqb_neq.
Qed.

(** X12. The dashboard log-in succeeds, with status 200, exactly when the
    [password] property is a string with the characters of the configured
    password, and answers 401 otherwise. The configured password is the
    environment variable when it is set and not empty, and "hr123"
    otherwise; it is never empty, so an empty or missing password is never
    accepted, and without configuration "hr123" is. *)
Theorem hrAuthenticate_password (env : option string)
    (props : list (string * JsonValue)) :
  (hrAuthenticate env props
   = mkAuthResponse 200 true "Authentication successful"
   <-> getProp props "password" = JString (HR_PASSWORD env))
  /\ (getProp props "password" <> JString (HR_PASSWORD env) ->
      hrAuthenticate env props = mkAuthResponse 401 false "Invalid password")
  /\ (emptyOrNoString (getProp props "password") ->
      hrAuthenticate env props = mkAuthResponse 401 false "Invalid password")
  /\ (forall configured, env = Some configured -> configured <> "" ->
                         HR_PASSWORD env = configured)
  /\ (env = None \/ env = Some "" -> HR_PASSWORD env = "hr123").
Proof.
  assert (Hcases : forall v, getProp props "password" = v ->
             (v = JString (HR_PASSWORD env)
              /\ hrAuthenticate env props
                 = mkAuthResponse 200 true "Authentication successful")
             \/ (v <> JString (HR_PASSWORD env)
                 /\ hrAuthenticate env props
                    = mkAuthResponse 401 false "Invalid password")).
  { intros v Hv. unfold hrAuthenticate. rewrite Hv.
    destruct v as [|p|]; try (right; split; [discriminate|reflexivity]).
    destruct (String.eqb p (HR_PASSWORD env)) eqn:E.
    - apply String.eqb_eq in E. left. now subst.
    - apply String.eqb_neq in E. right. split; [congruence|reflexivity]. }
  destruct (Hcases _ eq_refl) as [[Hv Hr]|[Hv Hr]].
  - split; [now rewrite Hr|]. split; [contradiction|]. split.
    + rewrite Hv. simpl. intros H. now apply HR_PASSWORD_nonempty in H.
    + split.
      * intros configured -> Hne. unfold HR_PASSWORD, truthyString.
        apply String.eqb_neq in Hne. now rewrite Hne.
      * intros [->| ->]; reflexivity.
  - split; [rewrite Hr; split; [discriminate|contradiction]|].
    split; [auto|]. split; [auto|]. split.
    + intros configured -> Hne. unfold HR_PASSWORD, truthyString.
      apply String.eqb_neq in Hne. now rewrite Hne.
    + intros [->| ->]; reflexivity.
Qed.

(** No configuration: "hr123" opens the dashboard, the empty password and a
    wrong one do not. *)
Lemma hrAuthenticate_password_witness :
  hrAuthenticate None [("password", JString "hr123")]
  = mkAuthResponse 200 true "Authentication successful"
  /\ hrAuthenticate (Some "") [("password", JString "")]
     = mkAuthResponse 401 false "Invalid password"
  /\ hrAuthenticate (Some "s3cret") [("password", JString "hr123")]
     = mkAuthResponse 401 false "Invalid password".
Proof.
  split; [|split].
  - apply (proj1 (hrAuthenticate_password None [("password", JString "hr123")])).
    reflexivity.
  - apply (proj1 (proj2 (proj2 (hrAuthenticate_password (Some "")
                                  [("password", JString "")])))).
    reflexivity.
  - apply (proj1 (proj2 (hrAuthenticate_password (Some "s3cret")
                           [("password", JString "hr123")]))).
    discriminate.
Defined.

(** ** A clock that reads an earlier instant *)

Lemma second_before_checked :
  allFrom (fun s => nearestHundredth (1000 * s)) (-3600) (Z.to_nat 3601) = true.
Proof. vm_compute. reflexivity. Qed.

(** X13. A clock-out is not refused when the clock reads the clock-in
    instant or an earlier one: for every whole number of seconds up to an
    hour that the reading lies before the clock-in time, the session is
    closed with status [completed] and a total that is zero or negative, a
    whole count of hundredths within half a hundredth of an hour of the
    (negative) duration. *)
Theorem clockOut_before_clockIn (recordId : string) (m : Store)
    (r : AttendanceRecord) (s : Z) :
  recordId <> "" ->
  get m recordId = Some r -> clockOutTime r = None -> id r = recordId ->
  0 <= s <= 3600 ->
  let now := clockInTime r - 1000 * s in
  exists (r' : AttendanceRecord) (m' : Store) (n : Z),
    clockOut now (clockOutBody recordId) m = (Created r', m')
    /\ status r' = "completed"
    /\ clockOutTime r' = Some now
    /\ option_map parseFloat (totalHours r') = Some (numberOfZ n / 100)%float
    /\ n <= 0
    /\ Z.abs (36000 * n + 1000 * s) <= 18000.
Proof.
  intros Hne Hg Hc Hid Hs now.
  assert (Hchk : nearestHundredth (1000 * (- s)) = true).
  { apply (allFrom_spec (fun s => nearestHundredth (1000 * s)) (Z.to_nat 3601)
             (-3600) second_before_checked).
    rewrite Z2Nat.id; lia. }
  destruct (nearestHundredth_sound _ Hchk) as (n & Hn & Hv).
  exists (closedSession r now), (set m (id r) (closedSession r now)), n.
  split.
  { apply clockOut_closes with (data := mkClockOutData recordId); auto.
    now apply clockOutSchema_accepts. }
  split; [reflexivity|]. split; [reflexivity|]. split.
  - unfold closedSession. cbn [totalHours option_map].
    rewrite calculateHours_shift.
    replace (now - clockInTime r) with (1000 * - s) by (unfold now; lia).
    now rewrite Hv.
  - split; lia.
Qed.

(** A clock-out one minute before the clock-in time. *)
Lemma clockOut_before_clockIn_witness :
  let r := newSession "6f1c" "Ada" "Other" "1970-01-01" (instant 0 9 0 0) in
  exists (r' : AttendanceRecord) (m' : Store) (n : Z),
    clockOut (instant 0 9 0 0 - 1000 * 60) (clockOutBody "6f1c") [("6f1c", r)]
    = (Created r', m')
    /\ status r' = "completed"
    /\ clockOutTime r' = Some (instant 0 9 0 0 - 1000 * 60)
    /\ option_map parseFloat (totalHours r') = Some (numberOfZ n / 100)%float
    /\ n <= 0
    /\ Z.abs (36000 * n + 1000 * 60) <= 18000.
Proof.
  intros r.
  apply (clockOut_before_clockIn "6f1c" [("6f1c", r)] r 60);
    try reflexivity; try discriminate; lia.
Defined.

(** ** Users *)

Section MapFacts.
Context {V : Type}.

Lemma mapGet_mapSet_same (m : list (string * V)) (k : string) (v : V) :
  mapGet (mapSet m k v) k = Some v.
Proof.
  induction m as [|[k0 v0] m IH]; simpl.
  - now rewrite String.eqb_refl.
  - destruct (String.eqb k0 k) eqn:E; simpl; rewrite E; auto.
Qed.

Lemma mapGet_mapSet_other (m : list (string * V)) (k k' : string) (v : V) :
  k <> k' -> mapGet (mapSet m k v) k' = mapGet m k'.
Proof.
  intros Hne. induction m as [|[k0 v0] m IH]; simpl.
  - apply String.eqb_neq in Hne. now rewrite Hne.
  - destruct (String.eqb k0 k) eqn:E; simpl.
    + apply String.eqb_eq in E. subst k0.
      apply String.eqb_neq in Hne. now rewrite Hne.
    + now rewrite IH.
Qed.

Lemma mapSet_fresh (m : list (string * V)) (k : string) (v : V) :
  ~ In k (map fst m) -> mapSet m k v = (m ++ [(k, v)])%list.
Proof.
  induction m as [|[k0 v0] m IH]; simpl; intros H; [reflexivity|].
  destruct (String.eqb k0 k) eqn:E.
  - apply String.eqb_eq in E. exfalso. auto.
  - rewrite IH; auto.
Qed.

End MapFacts.

(** X14. A created user is found under the id it was given, and the users
    stored before stay as they were. The map does not keep user names
    apart: a user is created also under a name that is taken, and the
    look-up by name keeps answering the user who had the name first; under
    a name that was free it answers the new user. *)
Theorem createUser_lookup (uuid : string) (insertUser : InsertUser)
    (users : Users) :
  let user := fst (createUser uuid insertUser users) in
  let users' := snd (createUser uuid insertUser users) in
  user = mkUser uuid (new_username insertUser) (new_password insertUser)
  /\ getUser uuid users' = Some user
  /\ (forall other, other <> uuid -> getUser other users' = getUser other users)
  /\ (~ In uuid (map fst users) ->
      (forall first,
          getUserByUsername (new_username insertUser) users = Some first ->
          getUserByUsername (new_username insertUser) users' = Some first)
      /\ (getUserByUsername (new_username insertUser) users = None ->
          getUserByUsername (new_username insertUser) users' = Some user)).
Proof.
  intros user users'. unfold user, users', createUser, getUser. simpl.
  split; [reflexivity|]. split; [apply mapGet_mapSet_same|]. split.
  - intros other Hne. apply mapGet_mapSet_other. congruence.
  - intros Hf. unfold getUserByUsername, mapValues.
    rewrite mapSet_fresh by assumption. rewrite map_app. split.
    + intros first H. now apply find_app_first.
    + intros H. rewrite find_app_none by assumption. simpl.
      now rewrite String.eqb_refl.
Qed.

(** Two users created under the name ada. *)
Lemma createUser_lookup_witness :
  let first := mkUser "6f1c" "ada" "pw1" in
  let second := mkUser "9e2d" "ada" "pw2" in
  let users' := snd (createUser "9e2d" (mkInsertUser "ada" "pw2") [("6f1c", first)]) in
  getUser "9e2d" users' = Some second
  /\ getUserByUsername "ada" users' = Some first.
Proof.
  intros first second users'.
  destruct (createUser_lookup "9e2d" (mkInsertUser "ada" "pw2") [("6f1c", first)])
    as (_ & Hget & _ & Hname).
  split; [exact Hget|].
  apply (proj1 (Hname ltac:(simpl; intros [H|[]]; discriminate)) first).
  reflexivity.
Defined.

(** ** The two stores side by side *)

Lemma database_get_values (m : Store) (k : string) :
  wellKeyed m ->
  DatabaseStorage.getAttendanceRecord k (values m) = get m k.
Proof.
  intros [_ Hid]. unfold DatabaseStorage.getAttendanceRecord.
  induction m as [|[k0 v0] m IH]; simpl; [reflexivity|].
  inversion Hid as [|? ? Hid0 Hid']; subst. simpl in Hid0.
  unfold DatabaseStorage.hasId at 1. rewrite Hid0.
  destruct (String.eqb k0 k); auto.
Qed.

Lemma database_has_key (m : Store) (k : string) :
  wellKeyed m ->
  existsb (DatabaseStorage.hasId k) (values m) = true <-> In k (keys m).
Proof.
  intros [_ Hid]. induction m as [|[k0 v0] m IH]; simpl.
  - split; [discriminate|contradiction].
  - inversion Hid as [|? ? Hid0 Hid']; subst. simpl in Hid0.
    unfold DatabaseStorage.hasId at 1. rewrite Hid0, orb_true_iff, String.eqb_eq.
    rewrite (IH Hid'). tauto.
Qed.

(** X15. The map-backed and the SQL-backed store, holding the same
    sessions, give the same answer to a look-up by id, and under an id not
    in use both create the same session and again hold the same sessions.
    Under an id already in use they part: the SQL-backed store refuses the
    row, the map-backed store puts the new session in the place of the
    stored one, which is lost. *)
Theorem stores_agree_on_fresh_ids (uuid : string) (record : InsertAttendance)
    (m : Store) :
  wellKeyed m ->
  let r := fst (MemStorage.createAttendanceRecord uuid record m) in
  let m' := snd (MemStorage.createAttendanceRecord uuid record m) in
  (forall k, DatabaseStorage.getAttendanceRecord k (values m)
             = MemStorage.getAttendanceRecord k m)
  /\ (~ In uuid (keys m) ->
      DatabaseStorage.createAttendanceRecord uuid record (values m)
      = Some (r, values m')
      /\ values m' = (values m ++ [r])%list
      /\ wellKeyed m')
  /\ (In uuid (keys m) ->
      DatabaseStorage.createAttendanceRecord uuid record (values m) = None
      /\ keys m' = keys m
      /\ MemStorage.getAttendanceRecord uuid m' = Some r
      /\ List.length (values m') = List.length (values m)).
Proof.
  intros Hwk r m'. split; [|split].
  - intros k. now apply database_get_values.
  - intros Hf.
    assert (Hex : existsb (DatabaseStorage.hasId uuid) (values m) = false).
    { destruct (existsb (DatabaseStorage.hasId uuid) (values m)) eqn:E; auto.
      apply (database_has_key m uuid Hwk) in E. contradiction. }
    assert (Hv : values m' = (values m ++ [r])%list).
    { unfold m', r. simpl. rewrite set_fresh by assumption. apply values_app. }
    split; [|split].
    + unfold DatabaseStorage.createAttendanceRecord,
        DatabaseStorage.insertReturning.
      cbn [id]. rewrite Hex. rewrite Hv. reflexivity.
    + exact Hv.
    + unfold m'. simpl. now apply wellKeyed_set.
  - intros Hin.
    assert (Hex : existsb (DatabaseStorage.hasId uuid) (values m) = true)
      by now apply (database_has_key m uuid Hwk).
    split; [|split; [|split]].
    + unfold DatabaseStorage.createAttendanceRecord,
        DatabaseStorage.insertReturning.
      cbn [id]. now rewrite Hex.
    + unfold m'. simpl. now apply keys_set_present.
    + unfold m', r, MemStorage.getAttendanceRecord. simpl. apply get_set_same.
    + unfold values. rewrite !length_map.
      rewrite <- (length_map fst m'), <- (length_map fst m).
      fold (keys m') (keys m). unfold m'. simpl.
      now rewrite keys_set_present.
Qed.

(** A second creation under the id of Ada's session. *)
Lemma stores_agree_on_fresh_ids_witness :
  let a := newSession "6f1c" "Ada" "Other" "1970-01-01" 5 in
  let record := mkInsertAttendance "Bo" "Other" 9 None None None "1970-01-01" in
  DatabaseStorage.createAttendanceRecord "6f1c" record [a] = None
  /\ snd (MemStorage.createAttendanceRecord "6f1c" record [("6f1c", a)])
     = [("6f1c", newSession "6f1c" "Bo" "Other" "1970-01-01" 9)]
  /\ DatabaseStorage.createAttendanceRecord "9e2d" record [a]
     = Some (newSession "9e2d" "Bo" "Other" "1970-01-01" 9,
             [a; newSession "9e2d" "Bo" "Other" "1970-01-01" 9]).
Proof.
  intros a record.
  assert (Hwk : wellKeyed [("6f1c", a)]).
  { split; [repeat constructor; simpl; tauto|repeat constructor]. }
  destruct (stores_agree_on_fresh_ids "6f1c" record [("6f1c", a)] Hwk)
    as (_ & _ & Hused).
  destruct (stores_agree_on_fresh_ids "9e2d" record [("6f1c", a)] Hwk)
    as (_ & Hfresh & _).
  split; [|split].
  - apply Hused. simpl. tauto.
  - reflexivity.
  - apply Hfresh. simpl. intros [H|[]]. discriminate.
Defined.

(** ** Day keys *)

Lemma day_keys_checked :
  allFrom (fun d => match dayOfKey (toISODate (d * msPerDay)) with
                    | Some d' => d' =? d
                    | None => false
                    end)
    0 (Z.to_nat (lastDayOf2099 + 1)) = true.
Proof. vm_compute. reflexivity. Qed.

Lemma toISODate_Day (t : Date) : toISODate t = toISODate (Day t * msPerDay).
Proof.
  unfold toISODate, Day. now rewrite Z.div_mul by (unfold msPerDay; lia).
Qed.

(** X16. From 1970 through 2099 the day key of an instant is a text of the
    form YYYY-MM-DD that reads back as the instant's UTC day; so two instants
    get the same key exactly when they lie on the same UTC day, and
    sessions of different days never share a key. *)
Theorem day_key_round_trip (t t' : Date) :
  0 <= Day t <= lastDayOf2099 -> 0 <= Day t' <= lastDayOf2099 ->
  dayOfKey (toISODate t) = Some (Day t)
  /\ (toISODate t = toISODate t' <-> Day t = Day t').
Proof.
  assert (Hback : forall u, 0 <= Day u <= lastDayOf2099 ->
                            dayOfKey (toISODate u) = Some (Day u)).
  { intros u Hu. rewrite toISODate_Day.
    pose proof (allFrom_spec _ _ _ day_keys_checked (Day u)) as H.
    rewrite Z2Nat.id in H by (unfold lastDayOf2099; lia).
    specialize (H ltac:(lia)). cbv beta in H.
    destruct (dayOfKey (toISODate (Day u * msPerDay))) as [d'|];
      [|discriminate].
    apply Z.eqb_eq in H. now subst. }
  intros Ht Ht'. split; [now apply Hback|]. split.
  - intros E. pose proof (Hback t Ht) as H1. pose proof (Hback t' Ht') as H2.
    rewrite E in H1. congruence.
  - intros E. rewrite (toISODate_Day t), (toISODate_Day t'). now rewrite E.
Qed.

(** The last millisecond of a day and the first of the next. *)
Lemma day_key_round_trip_witness :
  dayOfKey (toISODate (instant 19000 23 59 59 + 999)) = Some 19000
  /\ (toISODate (instant 19000 23 59 59 + 999) = toISODate (instant 19001 0 0 0)
      <-> Day (instant 19000 23 59 59 + 999) = Day (instant 19001 0 0 0)).
Proof.
  apply (day_key_round_trip (instant 19000 23 59 59 + 999) (instant 19001 0 0 0));
    vm_compute; split; discriminate.
Defined.

(** ** The answers of the handlers *)

Lemma zEnum_issues (path : string) (v : JsonValue) (issues : list ZodIssue) :
  zEnum departments path v = inr issues ->
  issues = [invalid_type path] \/ issues = [invalid_enum_value path].
Proof.
  unfold zEnum. destruct v as [|s|]; try (intros H; injection H; auto).
  destruct (existsb (String.eqb s) departments); [discriminate|].
  intros H; injection H; auto.
Qed.

Lemma clockInSchema_issues (reqBody : Body) (issues : list ZodIssue) :
  clockInSchema reqBody = inr issues ->
  exists first rest, issues = first :: rest /\ In first schemaIssues.
Proof.
  unfold clockInSchema. destruct reqBody as [props|].
  - destruct (zStringMin1 "employeeName" "Employee name is required"
                (getProp props "employeeName")) as [n|i1] eqn:E1;
      destruct (zEnum departments "department" (getProp props "department"))
        as [d|i2] eqn:E2; try discriminate; intros H; injection H as <-.
    + destruct (zEnum_issues _ _ _ E2) as [->| ->]; simpl;
        eexists; eexists; (split; [reflexivity|]); simpl; tauto.
    + destruct (zStringMin1_issues _ _ _ _ E1) as [->| ->]; simpl;
        eexists; eexists; (split; [reflexivity|]); simpl; tauto.
    + destruct (zStringMin1_issues _ _ _ _ E1) as [->| ->]; simpl;
        eexists; eexists; (split; [reflexivity|]); simpl; tauto.
  - intros H; injection H as <-.
    eexists; eexists; (split; [reflexivity|]); simpl; tauto.
Qed.

Lemma clockOutSchema_issues (reqBody : Body) (issues : list ZodIssue) :
  clockOutSchema reqBody = inr issues ->
  exists first rest, issues = first :: rest /\ In first schemaIssues.
Proof.
  unfold clockOutSchema. destruct reqBody as [props|].
  - destruct (zStringMin1 "recordId" "Record ID is required"
                (getProp props "recordId")) as [n|i1] eqn:E1;
      try discriminate; intros H; injection H as <-.
    destruct (zStringMin1_issues _ _ _ _ E1) as [->| ->];
      eexists; eexists; (split; [reflexivity|]); simpl; tauto.
  - intros H; injection H as <-.
    eexists; eexists; (split; [reflexivity|]); simpl; tauto.
Qed.

(** X17. Whatever the request body, a clock-in is answered with a
    validation error, the duplicate error or the created [active] session,
    and it changes the store only in the last case. On a store that keeps
    each session under its id, a clock-out is answered with a validation
    error, the not-found error, the already-closed error or the [completed]
    session, and changes the store only in the last case. Neither handler
    answers with status 500 or with an empty body. *)
Theorem handlers_answers (tza : Z -> Z) (now now' : Date) (uuid : string)
    (reqBody : Body) (m : Store) :
  (clockInAnswer (fst (clockIn tza now now' uuid reqBody m))
   /\ ((forall r, fst (clockIn tza now now' uuid reqBody m) <> Created r) ->
       snd (clockIn tza now now' uuid reqBody m) = m))
  /\ (wellKeyed m ->
      clockOutAnswer (fst (clockOut now reqBody m))
      /\ ((forall r, fst (clockOut now reqBody m) <> Created r) ->
          snd (clockOut now reqBody m) = m)).
Proof.
  split.
  - unfold clockIn.
    destruct (clockInSchema reqBody) as [data|issues] eqn:Hp.
    + destruct (getActiveAttendanceRecord _ _ m) as [x|]; simpl.
      * split; [|reflexivity]. right. left. now exists (id x).
      * split.
        -- right. right. eexists. repeat split.
        -- intros H. exfalso. eapply H. reflexivity.
    + destruct (clockInSchema_issues _ _ Hp) as (i & rest & -> & Hin). simpl.
      split; [|reflexivity]. left. now exists i.
  - intros Hwk. unfold clockOut, getAttendanceRecord.
    destruct (clockOutSchema reqBody) as [data|issues] eqn:Hp.
    + destruct (get m (data_recordId data)) as [r|] eqn:Hg; simpl.
      * destruct (clockOutTime r) eqn:Hc; simpl.
        -- split; [|reflexivity]. right. right. now left.
        -- rewrite (wellKeyed_get m _ r Hwk Hg).
           unfold updateAttendanceRecord. rewrite Hg. simpl. split.
           ++ right. right. right. eexists. exists now. repeat split.
           ++ intros H. exfalso. eapply H. reflexivity.
      * split; [|reflexivity]. right. now left.
    + destruct (clockOutSchema_issues _ _ Hp) as (i & rest & -> & Hin). simpl.
      split; [|reflexivity]. left. now exists i.
Qed.

(** A clock-out whose body is not an object. *)
Lemma handlers_answers_witness :
  clockOutAnswer (fst (clockOut 0 BodyOther []))
  /\ ((forall r, fst (clockOut 0 BodyOther []) <> Created r) ->
      snd (clockOut 0 BodyOther []) = []).
Proof.
  apply (proj2 (handlers_answers utc 0 0 "6f1c" BodyOther [])).
  split; constructor.
Defined.

(** * Clocking in twice on one day *)

Lemma find_unique {A : Type} (p : A -> bool) (l : list A) (a : A) :
  (List.length (filter p l) <= 1)%nat -> In a l -> p a = true ->
  find p l = Some a.
Proof.
  induction l as [|x l IH]; simpl; [tauto|].
  intros Hlen Hin Ha. destruct (p x) eqn:Ex.
  - destruct Hin as [->|Hin]; [reflexivity|].
    assert (Hf : In a (filter p l)) by (apply filter_In; auto).
    simpl in Hlen. destruct (filter p l); [destruct Hf|simpl in Hlen; lia].
  - destruct Hin as [->|Hin]; [congruence|]. now apply IH.
Qed.

(** What holds of every store that a run of the two handlers reaches from
    the empty store. *)
Lemma run_invariants (tza : Z -> Z) (m : Store) :
  reachable tza [] m ->
  wellKeyed m /\ Forall lifecycle (values m) /\ oneOpenPerDay m.
Proof.
  induction 1 as [|m' m'' Hr (Hwk & Hl & Hone) Hstep].
  - repeat split; try constructor. simpl. lia.
  - split; [now apply (step_wellKeyed tza m' m'')|]. split.
    + now apply (step_lifecycle tza m' m'').
    + now apply (step_oneOpenPerDay tza m' m'').
Qed.

(** C3, for the day key the code uses. The day of a session and of a
    clock-in is the UTC calendar day of the instant (the date part of
    [toISOString()]), which is the server's calendar day when its clock is
    UTC. In every store that a run of clock-ins and clock-outs reaches from
    the empty store: whenever the store holds a session of the employee
    under the day key of now whose status is [active] or [late], a clock-in
    for that employee fails with the duplicate error carrying that session's
    id and leaves the store as it was; and after a clock-in that succeeded,
    for as long as the session it created has no clock-out time, every
    further clock-in for the same employee at an instant of the same UTC
    day fails with the duplicate error carrying that session's id and stores
    nothing. *)
Theorem duplicate_clock_in_same_day_key (tza : Z -> Z) (m : Store) :
  reachable tza [] m ->
  (forall (now now' : Date) (uuid name dept : string) (r : AttendanceRecord),
      name <> "" -> In dept departments ->
      In r (values m) ->
      employeeName r = name -> date r = toISODate now ->
      status r = "active" \/ status r = "late" ->
      clockIn tza now now' uuid (clockInBody name dept) m
      = (DuplicateSessionError (id r), m))
  /\ (forall (now now' : Date) (uuid name dept : string) (m' : Store)
         (r : AttendanceRecord),
         ~ In uuid (keys m) ->
         clockIn tza now now' uuid (clockInBody name dept) m = (Created r, m') ->
         date r = toISODate now
         /\ forall m'' : Store,
              reachable tza m' m'' -> isOpen (id r) m'' ->
              forall (later later' : Date) (uuid' dept' : string),
                toISODate later = toISODate now -> name <> "" ->
                In dept' departments ->
                clockIn tza later later' uuid' (clockInBody name dept') m''
                = (DuplicateSessionError (id r), m''))
  /\ ((forall t : Date, tza t = 0) ->
      forall t : Date, localDate tza t = toISODate t).
Proof.
  intros Hrun. destruct (run_invariants tza m Hrun) as (Hwk & Hl & Hone).
  split; [|split].
  - intros now now' uuid name dept r Hn Hd Hin He Hday Hs.
    rewrite Forall_forall in Hl.
    assert (Hact : status r = "active").
    { destruct Hs as [Hs|Hs]; [assumption|].
      destruct (Hl r Hin) as [(Ha & _)|(Hc & _)]; congruence. }
    apply clockIn_duplicate with (data := mkClockInData name dept).
    + now apply clockInSchema_accepts.
    + cbn [data_employeeName]. rewrite getActiveAttendanceRecord_find.
      apply find_unique; [apply Hone|assumption|].
      apply isActiveFor_true. auto.
  - intros now now' uuid name dept m' r Hf Hc.
    split.
    { apply clockIn_created_inv in Hc. destruct Hc as (_ & -> & _). reflexivity. }
    intros m'' Hreach Hopen later later' uuid' dept' Hday Hn Hd.
    exact (proj2 duplicate_clock_in_while_active tza now now' uuid name dept
             m m' r Hwk Hf Hc m'' Hreach Hopen later later' uuid' dept'
             Hday Hn Hd).
  - intros Hutc t. unfold localDate, LocalTime. rewrite Hutc. f_equal. lia.
Qed.

(** After Ada's clock-in at 08:00 on a server whose clock is UTC. *)
Lemma duplicate_clock_in_same_day_key_witness :
  let t := instant 19000 8 0 0 in
  let first := newSession "6f1c" "Ada" "Other" "2022-01-08" t in
  let m := [("6f1c", first)] in
  clockIn utc (instant 19000 9 0 0) (instant 19000 9 0 0) "9e2d"
    (clockInBody "Ada" "Sales Team") m
  = (DuplicateSessionError "6f1c", m)
  /\ (date first = toISODate t
      /\ forall m'' : Store,
           reachable utc m m'' -> isOpen "6f1c" m'' ->
           forall (later later' : Date) (uuid' dept' : string),
             toISODate later = toISODate t -> "Ada" <> "" ->
             In dept' departments ->
             clockIn utc later later' uuid' (clockInBody "Ada" dept') m''
             = (DuplicateSessionError "6f1c", m''))
  /\ localDate utc t = toISODate t.
Proof.
  intros t first m.
  assert (Hstep : step utc [] m).
  { exact (step_clockIn utc t t "6f1c" (clockInBody "Ada" "Other") []
             (fun H => H)). }
  assert (Hrun : reachable utc [] m).
  { apply (reachable_step utc [] [] m); [apply reachable_here|exact Hstep]. }
  split; [|split].
  - apply (proj1 (duplicate_clock_in_same_day_key utc m Hrun)
             (instant 19000 9 0 0) (instant 19000 9 0 0) "9e2d" "Ada"
             "Sales Team" first).
    + discriminate.
    + simpl. repeat (try (left; reflexivity); right).
    + left. reflexivity.
    + reflexivity.
    + reflexivity.
    + left. reflexivity.
  - apply (proj1 (proj2 (duplicate_clock_in_same_day_key utc []
                           (reachable_here utc [])))
             t t "6f1c" "Ada" "Other" m first).
    + simpl. tauto.
    + reflexivity.
  - apply (proj2 (proj2 (duplicate_clock_in_same_day_key utc m Hrun))).
    reflexivity.
Defined.

(** C3 does not hold for the calendar day of the server. On a server five
    and a half hours ahead of UTC, Ada clocks in at 04:00 and again at 06:00
    of 9 January 2022, without a clock-out in between. The two instants lie
    on two UTC days, so the second clock-in finds no session under its day
    key: it succeeds, and the store holds two open sessions of Ada on one
    calendar day of the server. *)
Lemma same_local_day_two_sessions :
  let t1 := instant 19000 22 30 0 in
  let t2 := instant 19001 0 30 0 in
  let first := newSession "6f1c" "Ada" "Other" "2022-01-08" t1 in
  let second := newSession "9e2d" "Ada" "Other" "2022-01-09" t2 in
  localDate ist t1 = "2022-01-09" /\ localDate ist t2 = "2022-01-09"
  /\ getHours ist t1 = 4 /\ getHours ist t2 = 6
  /\ clockIn ist t1 t1 "6f1c" (clockInBody "Ada" "Other") []
     = (Created first, [("6f1c", first)])
  /\ clockIn ist t2 t2 "9e2d" (clockInBody "Ada" "Other") [("6f1c", first)]
     = (Created second, [("6f1c", first); ("9e2d", second)])
  /\ reachable ist [] [("6f1c", first); ("9e2d", second)]
  /\ isOpen "6f1c" [("6f1c", first); ("9e2d", second)]
  /\ isOpen "9e2d" [("6f1c", first); ("9e2d", second)]
  /\ forall existing : string,
       fst (clockIn ist t2 t2 "9e2d" (clockInBody "Ada" "Other")
              [("6f1c", first)])
       <> DuplicateSessionError existing.
Proof.
  intros t1 t2 first second.
  split; [reflexivity|]. split; [reflexivity|].
  split; [reflexivity|]. split; [reflexivity|].
  split; [reflexivity|]. split; [reflexivity|].
  split.
  { apply (reachable_step ist [] [("6f1c", first)]).
    - apply (reachable_step ist [] []); [apply reachable_here|].
      exact (step_clockIn ist t1 t1 "6f1c" (clockInBody "Ada" "Other") []
               (fun H => H)).
    - exact (step_clockIn ist t2 t2 "9e2d" (clockInBody "Ada" "Other")
               [("6f1c", first)] ltac:(simpl; intros [H|[]]; discriminate)). }
  split; [exists first; split; reflexivity|].
  split; [exists second; split; reflexivity|].
  intros existing. vm_compute. discriminate.
Qed.
